(** * Paster commands of Pylons: [controller] and [shell]

    A shallow embedding of [pylons/commands.py]: the name validator
    [validate_name], [ControllerCommand.command] and
    [ShellCommand.command], with the two console classes that override
    [raw_input].

    The commands are glue around external collaborators (Paste Script's
    [FileOp], Paste Deploy, [paste.fixture], the project's own modules, the
    consoles).  Those are not part of [commands.py]; they appear here as the
    fields of a record [Env] acting on a private external state.  What
    [commands.py] itself reads and writes is explicit in [world]:
    [sys.modules], [sys.path], the configuration stack, the [pylons.g] stack,
    and a log of the calls made to the collaborators.

    Paths follow the POSIX flavour of [os.path] ([os.sep] is a slash). *)

From Stdlib Require Import String Ascii List ZArith.
From stdpp Require Import base strings gmap list.

Open Scope string_scope.
Open Scope list_scope.

#[local] Set Warnings "-clear-no-such-hyp".

(** ** Python strings *)

Module PyStr.

(** [s.replace(old, new)] where [old] and [new] are single characters, as
    at both call sites of [commands.py]. *)
Fixpoint replace (old new : ascii) (s : string) : string :=
  match s with
  | EmptyString => EmptyString
  | String c rest =>
      String (if Ascii.eqb c old then new else c) (replace old new rest)
  end.

(** [s.startswith(c)] for a one-character prefix. *)
Definition startswith (c : ascii) (s : string) : bool :=
  match s with
  | EmptyString => false
  | String d _ => Ascii.eqb d c
  end.

(** [s.endswith(c)] for a one-character suffix. *)
Fixpoint endswith (c : ascii) (s : string) : bool :=
  match s with
  | EmptyString => false
  | String d EmptyString => Ascii.eqb d c
  | String _ rest => endswith c rest
  end.

(** [s[1:]] *)
Definition tail (s : string) : string :=
  match s with
  | EmptyString => EmptyString
  | String _ rest => rest
  end.

(** [s.split(c)], for a one-character separator; [cur] is the piece being
    read. *)
Fixpoint split_from (c : ascii) (cur s : string) : list string :=
  match s with
  | EmptyString => [cur]
  | String d rest =>
      if Ascii.eqb d c then cur :: split_from c EmptyString rest
      else split_from c (cur +:+ String d EmptyString) rest
  end.

Definition split (c : ascii) (s : string) : list string :=
  split_from c EmptyString s.

(** [l[-1]] on the result of a split, which is never empty. *)
Definition last (l : list string) : string := List.last l EmptyString.

Definition lower_ascii (c : ascii) : ascii :=
  let n := nat_of_ascii c in
  if (65 <=? n)%nat && (n <=? 90)%nat then ascii_of_nat (n + 32) else c.

(** [s.lower()] *)
Fixpoint lower (s : string) : string :=
  match s with
  | EmptyString => EmptyString
  | String c rest => String (lower_ascii c) (lower rest)
  end.

(** [not s] *)
Definition is_empty (s : string) : bool :=
  match s with
  | EmptyString => true
  | String _ _ => false
  end.

End PyStr.

(** ** [os.path] (posixpath) *)

Module OsPath.

Definition sep : ascii := "/"%char.
Definition sep_str : string := String sep EmptyString.

(** [os.path.join(a, b)] *)
Definition join (a b : string) : string :=
  if PyStr.startswith sep b then b
  else if PyStr.is_empty a || PyStr.endswith sep a then a +:+ b
  else a +:+ sep_str +:+ b.

End OsPath.

(** ** Exceptions *)

Inductive exc_class : Type :=
  | BaseException
  | Exception
  | KeyboardInterrupt
  | ImportError
  | EOFError
  | ValueError
  | IndexError
  | KeyError
  | AttributeError
  | BadCommand
  | UserDefined (name : string) (base : exc_class).

Global Instance exc_class_eq_dec : EqDecision exc_class.
Proof. solve_decision. Defined.

(** The chain of classes an [except] clause matches, most specific first. *)
Fixpoint mro (c : exc_class) : list exc_class :=
  match c with
  | BaseException => [BaseException]
  | KeyboardInterrupt => [KeyboardInterrupt; BaseException]
  | Exception => [Exception; BaseException]
  | UserDefined _ base => c :: mro base
  | _ => [c; Exception; BaseException]
  end.

Definition issubclass (c d : exc_class) : bool := bool_decide (d ∈ mro c).

(** An exception instance: its class and what [str(e)] gives. *)
Record exc : Type := mkExc { exc_cls : exc_class; exc_str : string }.

Global Instance exc_eq_dec : EqDecision exc.
Proof. solve_decision. Defined.

Definition isinstance (e : exc) (c : exc_class) : bool :=
  issubclass (exc_cls e) c.

(** ** Python values reaching the shell namespace *)

Inductive value : Type :=
  | VNone
  | VStr (s : string)
  | VModule (name : string)
  | VObj (id : N) (truth : bool).

Global Instance value_eq_dec : EqDecision value.
Proof. solve_decision. Defined.

(** [bool(v)]: the test of [if global_obj:]. *)
Definition truthy (v : value) : bool :=
  match v with
  | VNone => false
  | VStr s => negb (PyStr.is_empty s)
  | VModule _ => true
  | VObj _ t => t
  end.

(** ** Outcomes, the interpreter state and the external collaborators *)

Inductive result (A : Type) : Type :=
  | Ok (a : A)
  | Raise (e : exc).
Arguments Ok {A} a.
Arguments Raise {A} e.

(** What looking for a module that is not loaded yet, and running its code,
    comes to. *)
Inductive import_outcome : Type :=
  | Loaded
  | NotFound
  | Broken (e : exc).

(** [paste.script.filemaker.FileOp]: the fields the command sets. *)
Record file_op : Type := mkFileOp {
  source_dir : string;
  template_vars : gmap string string
}.

(** The collaborators of [commands.py], over their own state [E]. *)
Record Env : Type := mkEnv {
  E : Type;
  (* the import machinery: search [sys.path] for a module, run its code *)
  find_module : list string -> string -> E -> import_outcome * E;
  (* os *)
  isfile : string -> E -> bool;
  getcwd : E -> string;
  module_dir : string;                       (* os.path.dirname(__file__) *)
  sys_version : string;
  (* paste.script *)
  parse_path_name_args : string -> E -> result (string * string) * E;
  copy_file : file_op -> string -> string -> string -> E -> result unit * E;
  get_usage : string;                        (* self.parser.get_usage() *)
  (* pylons.util *)
  class_name_from_module_name : string -> string;
  (* paste.deploy, paste.fixture and the project *)
  appconfig : string -> string -> E -> result value * E;
  loadapp : string -> string -> E -> result value * E;
  getattr : value -> string -> E -> result value * E;
  call : value -> E -> result value * E;
  TestApp : value -> E -> result value * E;
  get_root_g : value -> E -> result value * E;   (* test_app.get('/').g *)
  (* the consoles *)
  ipshell_mainloop : gmap string value -> E -> result unit * E;
  interact : string -> gmap string value -> E -> result unit * E
}.

(** Calls made to the collaborators, in the order they were made. *)
Inductive event : Type :=
  | EvFindModule (name : string)
  | EvParsePath (arg : string)
  | EvCopyFile (fo : file_op) (template dest filename : string)
  | EvAppconfig (config_name relative_to : string)
  | EvLoadapp (config_name relative_to : string)
  | EvGetattr (obj : value) (attr : string)
  | EvCall (f : value)
  | EvTestApp (app : value)
  | EvProbe (test_app : value)
  | EvIPShell (user_ns : gmap string value)
  | EvInteract (banner : string) (locals : gmap string value).

Section Commands.

Context (env : Env).

Record world : Type := mkWorld {
  ext : E env;
  sys_modules : gset string;
  sys_path : list string;
  config_stack : list (gmap string value);  (* paste.deploy.config.CONFIG *)
  pylons_g : list value;                    (* pylons.g, top first *)
  verbose : Z;                              (* self.verbose *)
  calls : list event
}.

Definition set_ext (x : E env) (w : world) : world :=
  mkWorld x (sys_modules w) (sys_path w) (config_stack w) (pylons_g w)
          (verbose w) (calls w).
Definition set_sys_modules (m : gset string) (w : world) : world :=
  mkWorld (ext w) m (sys_path w) (config_stack w) (pylons_g w)
          (verbose w) (calls w).
Definition set_sys_path (p : list string) (w : world) : world :=
  mkWorld (ext w) (sys_modules w) p (config_stack w) (pylons_g w)
          (verbose w) (calls w).
Definition set_config_stack (c : list (gmap string value)) (w : world)
  : world :=
  mkWorld (ext w) (sys_modules w) (sys_path w) c (pylons_g w)
          (verbose w) (calls w).
Definition set_pylons_g (g : list value) (w : world) : world :=
  mkWorld (ext w) (sys_modules w) (sys_path w) (config_stack w) g
          (verbose w) (calls w).
Definition set_verbose (v : Z) (w : world) : world :=
  mkWorld (ext w) (sys_modules w) (sys_path w) (config_stack w)
          (pylons_g w) v (calls w).
Definition log (ev : event) (w : world) : world :=
  mkWorld (ext w) (sys_modules w) (sys_path w) (config_stack w)
          (pylons_g w) (verbose w) (calls w ++ [ev]).

(** *** The monad of statements: state and exceptions *)

Definition M (A : Type) : Type := world -> result A * world.

Definition ret {A} (a : A) : M A := fun w => (Ok a, w).
Definition raise {A} (e : exc) : M A := fun w => (Raise e, w).
Definition bind {A B} (m : M A) (k : A -> M B) : M B :=
  fun w =>
    match m w with
    | (Ok a, w') => k a w'
    | (Raise e, w') => (Raise e, w')
    end.

(** [try: m except: h]; the state reached when [m] raised is kept. *)
Definition try_except {A} (m : M A) (h : exc -> M A) : M A :=
  fun w =>
    match m w with
    | (Ok a, w') => (Ok a, w')
    | (Raise e, w') => h e w'
    end.

(** [try: m except C: h]; exceptions outside [C] pass. *)
Definition try_except_class {A} (m : M A) (c : exc_class) (h : exc -> M A)
  : M A :=
  try_except m (fun e => if isinstance e c then h e else raise e).

Definition gets {A} (f : world -> A) : M A := fun w => (Ok (f w), w).
Definition modify (f : world -> world) : M unit := fun w => (Ok tt, f w).

(** A call to a collaborator: logged, then run on the external state. *)
Definition external {A} (ev : event) (f : E env -> result A * E env)
  : M A :=
  fun w =>
    let w1 := log ev w in
    let '(r, x) := f (ext w1) in (r, set_ext x w1).

Definition pass : M unit := ret tt.

End Commands.

Arguments ret {env A} a.
Arguments raise {env A} e.
Arguments bind {env A B} m k.
Arguments try_except {env A} m h.
Arguments try_except_class {env A} m c h.
Arguments gets {env A} f.
Arguments modify {env} f.
Arguments external {env A} ev f.
Arguments pass {env}.

Declare Scope py_scope.
Delimit Scope py_scope with py.
Notation "'let*' x ':=' m 'in' k" := (bind m (fun x => k))
  (at level 10, x name, m at level 100, k at level 200) : py_scope.
Notation "'let*' ' p ':=' m 'in' k" := (bind m (fun p => k))
  (at level 10, p pattern, m at level 100, k at level 200) : py_scope.
Notation "m ';;' k" := (bind m (fun _ => k))
  (at level 100, k at level 200, right associativity) : py_scope.
Open Scope py_scope.

Definition nl : string := String (ascii_of_nat 10) EmptyString.

(** ** [__import__] *)

Section PyImport.

Context (env : Env).

(** The packages above a dotted name: ["a.b.c"] has ["a"] and ["a.b"]. *)
Fixpoint dotted_parents (seen s : string) : list string :=
  match s with
  | EmptyString => []
  | String c rest =>
      if Ascii.eqb c "."%char
      then seen :: dotted_parents (seen +:+ ".") rest
      else dotted_parents (seen +:+ String c EmptyString) rest
  end.

(** What [__import__(name)] loads, outermost package first. *)
Definition package_chain (name : string) : list string :=
  dotted_parents EmptyString name ++ [name].

Definition run_find_module (p : string) : M env import_outcome :=
  fun w =>
    let w1 := log env (EvFindModule p) w in
    let '(o, x) := find_module env (sys_path env w1) p (ext env w1) in
    (Ok o, set_ext env x w1).

(** [s[n:]] *)
Fixpoint string_from (n : nat) (s : string) : string :=
  match n, s with
  | O, _ => s
  | S n', String _ rest => string_from n' rest
  | S _, EmptyString => EmptyString
  end.

(** The name in the message of Python 2 when the link [p] of the import of
    [full] is not found: what is left of [full] from the last component of
    [p] on (["b.c"] when ["a.b"] is missing in ["a.b.c"]). *)
Definition missing_name (full p : string) : string :=
  PyStr.last (PyStr.split "." p) +:+ string_from (String.length p) full.

(** One link [p] of the import of [full]: a module already in [sys.modules]
    is not loaded again; a module that loads is entered in [sys.modules];
    for one that is missing [ImportError] is raised; one whose code raises
    gives that exception.  As for every collaborator, what the code of the
    module does beyond that (the other modules it imports, what it writes to
    the interpreter) stays in the external state and is not followed
    here. *)
Definition import_one (full p : string) : M env unit :=
  let* cached := gets (fun w => bool_decide (p ∈ sys_modules env w)) in
  if cached : bool then pass
  else
    let* o := run_find_module p in
    match o with
    | Loaded =>
        modify (fun w => set_sys_modules env ({[p]} ∪ sys_modules env w) w)
    | NotFound =>
        raise (mkExc ImportError
                 ("No module named " +:+ missing_name full p))
    | Broken e => raise e
    end.

Fixpoint import_chain (full : string) (l : list string) : M env unit :=
  match l with
  | [] => pass
  | p :: rest => import_one full p ;; import_chain full rest
  end.

(** [__import__(name)] of Python 2; the module returned is not used by
    [commands.py]. *)
Definition py_import (name : string) : M env unit :=
  if PyStr.is_empty name
  then raise (mkExc ValueError "Empty module name")
  else import_chain name (package_chain name).

(** [sys.modules[name]] *)
Definition sys_modules_getitem (name : string) : M env value :=
  let* present := gets (fun w => bool_decide (name ∈ sys_modules env w)) in
  if present : bool then ret (VModule name)
  else raise (mkExc KeyError ("'" +:+ name +:+ "'")).

(** The import attempt on [name] from [w] goes through. *)
Definition importable (name : string) (w : world env) : Prop :=
  fst (py_import name w) = Ok tt.

End PyImport.

(** ** [validate_name] *)

Section Validate.

Context (env : Env).

Definition no_name_message : string :=
  "Please give the name of a controller.".

(** The routing line the collision message ends with. *)
Definition routing_snippet (name : string) : string :=
  "  map.connect('" +:+ name +:+ "', controller='my_" +:+ name +:+ "')".

Definition collision_message (name : string) : string :=
  nl +:+ nl +:+ "A module named '" +:+ name +:+
  "' is already present in your PYTHON_PATH." +:+ nl +:+
  " Choosing a conflicting name will likely cause import problems in" +:+
  nl +:+
  " your controller at some point. It's suggested that you choose an alternate"
  +:+ nl +:+
  "name, and if you'd like that name to be accessible as '" +:+ name +:+
  "', add a route" +:+ nl +:+
  "to your projects config/routing.py file similar to:" +:+ nl +:+
  routing_snippet name.

(** [validate_name(name)], lines 21-42.  [name] is a [str], of which the
    empty one alone is false.  [BadCommand] does not derive from
    [ImportError], so the one raised inside the [try] is not caught by its
    [except ImportError]. *)
Definition validate_name (name : string) : M env bool :=
  (if PyStr.is_empty name
   then raise (mkExc BadCommand no_name_message)
   else pass) ;;
  try_except_class
    (py_import env name ;;
     raise (mkExc BadCommand (collision_message name)))
    ImportError
    (fun _ => pass) ;;
  ret true.

End Validate.

(** ** [ControllerCommand.command] *)

Section Controller.

Context (env : Env).

(** [self.args[0]] *)
Definition args_getitem0 (args : list string) : M env string :=
  match args with
  | a :: _ => ret a
  | [] => raise (mkExc IndexError "list index out of range")
  end.

(** The absolute form of [os.path.join(directory, name)]. *)
Definition fullname (directory name : string) : string :=
  let fullname := OsPath.join directory name in
  if negb (PyStr.startswith OsPath.sep fullname)
  then OsPath.sep_str +:+ fullname
  else fullname.

(** [fullname.replace(os.sep, '_')[1:]] *)
Definition testname (directory name : string) : string :=
  PyStr.tail (PyStr.replace OsPath.sep "_" (fullname directory name)).

Definition no_egg_info_message : string :=
  "No egg_info directory was found".

Definition unknown_error_message (e : exc) : string :=
  "An unknown error ocurred, " +:+ exc_str e.

(** The [FileOp] of line 83 once line 100 has updated its
    [template_vars]. *)
Definition controller_file_op (directory name : string) : file_op :=
  let file_op :=
    mkFileOp (OsPath.join (module_dir env) "templates") ∅ in
  let controller_name :=
    class_name_from_module_name env (PyStr.last (PyStr.split "/" name)) in
  mkFileOp (source_dir file_op)
    (<["fname" := OsPath.join directory name]>
       (<["name" := controller_name]> (template_vars file_op))).

Definition file_op_copy_file (fo : file_op)
  (template dest filename : string) : M env unit :=
  external (EvCopyFile fo template dest filename)
    (copy_file env fo template dest filename).

(** Lines 94-108: the two templates. *)
Definition render_templates (directory name : string) (no_test : bool)
  : M env unit :=
  let file_op := controller_file_op directory name in
  file_op_copy_file file_op "controller.py_tmpl"
    (OsPath.join "controllers" directory) name ;;
  if negb no_test
  then
    file_op_copy_file file_op "test_controller.py_tmpl"
      (OsPath.join "tests" "functional")
      ("test_" +:+ testname directory name)
  else pass.

(** The body of the outer [try]. *)
Definition controller_body (args : list string) (no_test : bool)
  : M env unit :=
  let* '(name, directory) :=
    try_except
      (let* arg := args_getitem0 args in
       external (EvParsePath arg) (parse_path_name_args env arg))
      (fun _ => raise (mkExc BadCommand no_egg_info_message)) in
  let name := PyStr.replace "-" "_" name in
  validate_name env name ;;
  render_templates directory name no_test.

(** The [copy_file] calls of a log: template, destination and file name. *)
Definition copy_calls (l : list event) : list (string * string * string) :=
  omap (fun ev =>
          match ev with
          | EvCopyFile _ template dest filename =>
              Some (template, dest, filename)
          | _ => None
          end) l.

End Controller.

Module ControllerCommand.

Definition min_args : nat := 1.
Definition max_args : nat := 1.

(** [command(self)], lines 80-111; [args] is [self.args] and [no_test] is
    [self.options.no_test]. *)
Definition command (env : Env) (args : list string) (no_test : bool)
  : M env unit :=
  try_except (controller_body env args no_test)
    (fun e => raise (mkExc BadCommand (unknown_error_message e))).

End ControllerCommand.

(** ** [ShellCommand.command] *)

Section Shell.

Context (env : Env).

Definition default_config_file : string := "development.ini".

Definition config_not_found_message : string :=
  get_usage env +:+ "Error: CONFIG_FILE not found at: ." +:+
  OsPath.sep_str +:+ default_config_file +:+ nl +:+
  "Please specify a CONFIG_FILE".

(** Lines 139-148: which configuration file. *)
Definition shell_config_file (args : list string) : M env string :=
  match args with
  | [] =>
      let config_file := default_config_file in
      let* present := gets (fun w => isfile env config_file (ext env w)) in
      if negb present
      then raise (mkExc BadCommand config_not_found_message)
      else ret config_file
  | arg :: _ => ret arg
  end.

(** Line 152: [locs = dict(__name__="pylons-admin")]. *)
Definition initial_locs : gmap string value :=
  {[ "__name__" := VStr "pylons-admin" ]}.

(** What lines 150-177 leave in the other local variables. *)
Record loaded : Type := mkLoaded {
  ld_models_package : string;
  ld_helpers_package : string;
  ld_mapper : value;
  ld_wsgiapp : value;
  ld_test_app : value
}.

(** [for pack in packs: __import__(pack)] *)
Fixpoint import_all (packs : list string) : M env unit :=
  match packs with
  | [] => pass
  | pack :: rest => py_import env pack ;; import_all rest
  end.

(** Lines 150-177: configuration, application, project modules. *)
Definition shell_load (config_file : string) : M env loaded :=
  let config_name := "config:" +:+ config_file in
  let* here_dir := gets (fun w => getcwd env (ext env w)) in
  let pkg_name :=
    PyStr.lower (PyStr.last (PyStr.split OsPath.sep here_dir)) in
  let* app_conf :=
    external (EvAppconfig config_name here_dir)
      (appconfig env config_name here_dir) in
  let conf : gmap string value :=
    <["app_conf" := app_conf]> {[ "app" := app_conf ]} in
  modify (fun w => set_config_stack env (conf :: config_stack env w) w) ;;
  modify (fun w => set_sys_path env (here_dir :: sys_path env w) w) ;;
  let* wsgiapp :=
    external (EvLoadapp config_name here_dir)
      (loadapp env config_name here_dir) in
  let routing_package := pkg_name +:+ ".config.routing" in
  let models_package := pkg_name +:+ ".models" in
  let helpers_package := pkg_name +:+ ".lib.helpers" in
  import_all [routing_package; models_package; helpers_package] ;;
  let* routing := sys_modules_getitem env routing_package in
  let* make_map :=
    external (EvGetattr routing "make_map")
      (getattr env routing "make_map") in
  let* mapper := external (EvCall make_map) (call env make_map) in
  let* test_app := external (EvTestApp wsgiapp) (TestApp env wsgiapp) in
  ret (mkLoaded models_package helpers_package mapper wsgiapp test_app).

(** Lines 178-182: the probe for the globals object. *)
Definition probe_globals (test_app : value) : M env value :=
  try_except
    (external (EvProbe test_app) (get_root_g env test_app))
    (fun _ => ret VNone).

(** ["%-10s" % s] *)
Definition ljust10 (s : string) : string :=
  s +:+ string_of_list_ascii (repeat " "%char (10 - String.length s)).

Definition banner_line (name descr : string) : string :=
  "  " +:+ ljust10 name +:+ " -  " +:+ descr +:+ nl.

(** Lines 197-207. *)
Definition make_banner (global_obj : value) : string :=
  "Pylons Interactive Shell" +:+ nl +:+ "Python " +:+ sys_version env +:+
  nl +:+ nl +:+
  "Additional Objects:" +:+ nl +:+
  banner_line "mapper" "Routes mapper object" +:+
  banner_line "h" "Helper object" +:+
  (if truthy global_obj then banner_line "g" "Globals object"
   else EmptyString) +:+
  banner_line "model" "Models from models package" +:+
  banner_line "wsgiapp" "This projects WSGI App instance" +:+
  banner_line "app" "paste.fixture wrapped around wsgiapp".

(** The argument of [locs.update], lines 185-191. *)
Definition namespace_update (ld : loaded) (model h : value)
  : gmap string value :=
  <["h" := h]> (<["app" := ld_test_app ld]>
    (<["wsgiapp" := ld_wsgiapp ld]> (<["mapper" := ld_mapper ld]>
      {[ "model" := model ]}))).

(** Lines 178-207: the probe, the namespace, the banner. *)
Definition shell_assemble (ld : loaded)
  : M env (string * gmap string value) :=
  let* global_obj := probe_globals (ld_test_app ld) in
  let* model := sys_modules_getitem env (ld_models_package ld) in
  let* h := sys_modules_getitem env (ld_helpers_package ld) in
  let locs := namespace_update ld model h ∪ initial_locs in
  let* locs :=
    if truthy global_obj
    then
      let locs := <["g" := global_obj]> locs in
      modify (fun w => set_pylons_g env (global_obj :: pylons_g env w) w) ;;
      ret locs
    else ret locs in
  ret (make_banner global_obj, locs).

(** Lines 208-247: IPython when it imports, [code.InteractiveConsole]
    otherwise. *)
Definition shell_console (banner : string) (locs : gmap string value)
  : M env unit :=
  try_except_class
    (py_import env "IPython" ;;
     external (EvIPShell locs) (ipshell_mainloop env locs))
    ImportError
    (fun _ =>
       py_import env "code" ;;
       try_except_class (py_import env "readline") ImportError
         (fun _ => pass) ;;
       external (EvInteract banner locs) (interact env banner locs)).

End Shell.

Module ShellCommand.

Definition min_args : nat := 0.
Definition max_args : nat := 1.

(** [command(self)], lines 135-247; [args] is [self.args]. *)
Definition command (env : Env) (args : list string) : M env unit :=
  modify (set_verbose env 3) ;;
  let* config_file := shell_config_file env args in
  let* ld := shell_load env config_file in
  let* '(banner, locs) := shell_assemble env ld in
  shell_console env banner locs.

End ShellCommand.

(** *** The console classes *)

Module CustomIPShell.

(** [raw_input(self, *args, **kw)], lines 214-222; [parent] is
    [IPython.iplib.InteractiveShell.raw_input(self, *args, **kw)]. *)
Definition raw_input (env : Env) (parent : M env string) : M env string :=
  try_except_class parent EOFError
    (fun _ => raise (mkExc EOFError EmptyString)).

End CustomIPShell.

Module CustomShell.

(** [raw_input(self, *args, **kw)], lines 232-240; [parent] is
    [code.InteractiveConsole.raw_input(self, *args, **kw)]. *)
Definition raw_input (env : Env) (parent : M env string) : M env string :=
  try_except_class parent EOFError
    (fun _ => raise (mkExc EOFError EmptyString)).

End CustomShell.

(** ** What the properties speak about *)

Section Observations.

Context (env : Env).
Implicit Types (w : world env) (name directory : string).

(** [w'] differs from [w] in the external state, the loaded modules and
    the log at most. *)
Definition same_interpreter w w' : Prop :=
  sys_path env w' = sys_path env w /\
  config_stack env w' = config_stack env w /\
  pylons_g env w' = pylons_g env w /\
  verbose env w' = verbose env w.

(** The calls made from [w] to [w'], when [w'] continues [w]. *)
Definition calls_since w w' : list event :=
  drop (length (calls env w)) (calls env w').

(** [w'] continues the log of [w] without any [copy_file] call. *)
Definition no_copy w w' : Prop :=
  exists new, calls env w' = calls env w ++ new /\ copy_calls new = [].

Fixpoint has_dot (s : string) : bool :=
  match s with
  | EmptyString => false
  | String c rest => Ascii.eqb c "."%char || has_dot rest
  end.

(** A name without a dot: a top-level module. *)
Definition top_level name : Prop := has_dot name = false.

(** The two calls of the rendering. *)
Definition controller_call directory name : event :=
  EvCopyFile (controller_file_op env directory name) "controller.py_tmpl"
    (OsPath.join "controllers" directory) name.

Definition test_call directory name : event :=
  EvCopyFile (controller_file_op env directory name)
    "test_controller.py_tmpl" (OsPath.join "tests" "functional")
    ("test_" +:+ testname directory name).

(** The namespace without [g]. *)
Definition base_namespace (ld : loaded) : gmap string value :=
  namespace_update ld (VModule (ld_models_package ld))
    (VModule (ld_helpers_package ld)) ∪ initial_locs.

(** What the probe leaves in [global_obj]. *)
Definition probed (r : result value) : value :=
  match r with
  | Ok v => v
  | Raise _ => VNone
  end.

(** A wrapper of [raw_input] that hands on what the parent does: the same
    state, the same line, end of input as end of input, any other exception
    as it came. *)
Definition pass_through (wrapper : M env string -> M env string) : Prop :=
  forall (parent : M env string) w,
    snd (wrapper parent w) = snd (parent w) /\
    match fst (parent w) with
    | Ok line => fst (wrapper parent w) = Ok line
    | Raise e =>
        if isinstance e EOFError
        then exists e', fst (wrapper parent w) = Raise e' /\
                        exc_cls e' = EOFError
        else fst (wrapper parent w) = Raise e
    end.

(** The character [c] occurs in [s]. *)
Definition occurs (c : ascii) (s : string) : Prop :=
  In c (list_ascii_of_string s).

(** What [copy_calls] shows of the two calls of the rendering. *)
Definition controller_triple directory name : string * string * string :=
  ("controller.py_tmpl", OsPath.join "controllers" directory, name).

Definition test_triple directory name : string * string * string :=
  ("test_controller.py_tmpl", "tests/functional",
   "test_" +:+ testname directory name).

(** [needle in s] *)
Fixpoint str_contains (needle s : string) : bool :=
  String.prefix needle s ||
  match s with
  | EmptyString => false
  | String _ rest => str_contains needle rest
  end.

(** [sys.path] and the configuration stack from [w] to [w']. *)
Definition same_path_config w w' : Prop :=
  sys_path env w' = sys_path env w /\
  config_stack env w' = config_stack env w.

End Observations.

(** ** A concrete project to run the commands on *)

Module Demo.

(** Modules that can be found from the project directory. *)
Definition on_path : list string :=
  ["json"; "myproj"; "myproj.config"; "myproj.config.routing";
   "myproj.models"; "myproj.lib"; "myproj.lib.helpers"; "code"].

Definition find (path : list string) (name : string) (x : unit)
  : import_outcome * unit :=
  if bool_decide (name ∈ on_path) then (Loaded, x)
  else if bool_decide (name = "paster_plugin")
       then (Broken (mkExc BadCommand "plugin refused to load"), x)
       else (NotFound, x).

Definition parse (arg : string) (x : unit)
  : result (string * string) * unit :=
  if bool_decide (arg = "admin/trackback")
  then (Ok ("trackback", "admin"), x)
  else (Ok (arg, EmptyString), x).

(** The project, with the outcome of the probe of the root path and of
    the rendering of a template as parameters. *)
Definition env (probe : result value) (copy : result unit) : Env :=
  {| E := unit;
     find_module := find;
     isfile := fun _ _ => false;
     getcwd := fun _ => "/home/dev/MyProj";
     module_dir := "/usr/lib/python/site-packages/pylons";
     sys_version := "2.4";
     parse_path_name_args := parse;
     copy_file := fun _ _ _ _ x => (copy, x);
     get_usage := "Usage: paster shell [CONFIG_FILE]" +:+ nl;
     class_name_from_module_name := fun s => s;
     appconfig := fun _ _ x => (Ok (VObj 1 true), x);
     loadapp := fun _ _ x => (Ok (VObj 2 true), x);
     getattr := fun _ _ x => (Ok (VObj 3 true), x);
     call := fun _ x => (Ok (VObj 4 true), x);
     TestApp := fun _ x => (Ok (VObj 5 true), x);
     get_root_g := fun _ x => (probe, x);
     ipshell_mainloop := fun _ x => (Ok tt, x);
     interact := fun _ _ x => (Ok tt, x) |}.

Definition globals_obj : value := VObj 6 true.
Definition env_g : Env := env (Ok globals_obj) (Ok tt).
Definition env_no_g : Env :=
  env (Raise (mkExc AttributeError "g")) (Ok tt).
Definition env_falsy_g : Env := env (Ok (VObj 6 false)) (Ok tt).
Definition disk_full : exc :=
  mkExc (UserDefined "IOError" Exception) "No space left on device".
Definition env_disk_full : Env := env (Ok globals_obj) (Raise disk_full).

(** A fresh interpreter in the project directory. *)
Definition start (e : Env) (x : E e) : world e :=
  mkWorld e x ∅ [] [] [] 0 [].

End Demo.

(** ** Further projects: modules that fail on import, a configuration that
    does not load, an IPython that lacks a dependency *)

Module Scenario.

Definition syntax_error : exc :=
  mkExc (UserDefined "SyntaxError" Exception) "invalid syntax".
Definition missing_dependency : exc :=
  mkExc ImportError "No module named dep".

Definition find (path : list string) (name : string) (x : unit)
  : import_outcome * unit :=
  if bool_decide (name ∈ "IPython" :: Demo.on_path) then (Loaded, x)
  else if bool_decide (name = "bad_syntax") then (Broken syntax_error, x)
  else if bool_decide (name = "needs_dep")
       then (Broken missing_dependency, x)
       else (NotFound, x).

(** A working directory, with the outcome of [appconfig] and of the IPython
    main loop as parameters; [development.ini] is there. *)
Definition at_directory (cwd : string) (appconf : result value)
    (mainloop : result unit) : Env :=
  {| E := unit;
     find_module := find;
     isfile := fun f _ => bool_decide (f = "development.ini");
     getcwd := fun _ => cwd;
     module_dir := "/usr/lib/python/site-packages/pylons";
     sys_version := "2.4";
     parse_path_name_args := Demo.parse;
     copy_file := fun _ _ _ _ x => (Ok tt, x);
     get_usage := "Usage: paster shell [CONFIG_FILE]" +:+ nl;
     class_name_from_module_name := fun s => s;
     appconfig := fun _ _ x => (appconf, x);
     loadapp := fun _ _ x => (Ok (VObj 2 true), x);
     getattr := fun _ _ x => (Ok (VObj 3 true), x);
     call := fun _ x => (Ok (VObj 4 true), x);
     TestApp := fun _ x => (Ok (VObj 5 true), x);
     get_root_g := fun _ x => (Ok Demo.globals_obj, x);
     ipshell_mainloop := fun _ x => (mainloop, x);
     interact := fun _ _ x => (Ok tt, x) |}.

Definition app_conf : value := VObj 1 true.
Definition no_app_section : exc :=
  mkExc (UserDefined "LookupError" Exception) "No section app:main".

(** The project of [Demo]. *)
Definition env (appconf : result value) (mainloop : result unit) : Env :=
  at_directory "/home/dev/MyProj" appconf mainloop.

(** The project when the project directory cannot be read ([parse] raises)
    and when the test directory cannot be written to. *)
Definition no_access : exc :=
  mkExc (UserDefined "OSError" Exception) "Permission denied".

Definition copy_but_test (fo : file_op) (template dest filename : string)
    (x : unit) : result unit * unit :=
  if bool_decide (template = "test_controller.py_tmpl")
  then (Raise Demo.disk_full, x)
  else (Ok tt, x).

Definition controller_project
    (parse : string -> unit -> result (string * string) * unit)
    (copy : file_op -> string -> string -> string -> unit ->
            result unit * unit) : Env :=
  {| E := unit;
     find_module := find;
     isfile := fun f _ => bool_decide (f = "development.ini");
     getcwd := fun _ => "/home/dev/MyProj";
     module_dir := "/usr/lib/python/site-packages/pylons";
     sys_version := "2.4";
     parse_path_name_args := parse;
     copy_file := copy;
     get_usage := "Usage: paster controller CONTROLLER_NAME" +:+ nl;
     class_name_from_module_name := fun s => s;
     appconfig := fun _ _ x => (Ok (VObj 1 true), x);
     loadapp := fun _ _ x => (Ok (VObj 2 true), x);
     getattr := fun _ _ x => (Ok (VObj 3 true), x);
     call := fun _ x => (Ok (VObj 4 true), x);
     TestApp := fun _ x => (Ok (VObj 5 true), x);
     get_root_g := fun _ x => (Ok Demo.globals_obj, x);
     ipshell_mainloop := fun _ x => (Ok tt, x);
     interact := fun _ _ x => (Ok tt, x) |}.

Definition env_no_access : Env :=
  controller_project (fun _ x => (Raise no_access, x))
    (fun _ _ _ _ x => (Ok tt, x)).
Definition env_test_unwritable : Env :=
  controller_project Demo.parse copy_but_test.

Definition env_ok : Env := env (Ok app_conf) (Ok tt).
Definition env_elsewhere : Env := at_directory "/tmp" (Ok app_conf) (Ok tt).
Definition env_no_conf : Env := env (Raise no_app_section) (Ok tt).
Definition env_ipython_incomplete : Env :=
  env (Ok app_conf) (Raise (mkExc ImportError "No module named readline")).

End Scenario.

(** * Properties *)

(** ** The interpreter state across an import *)

Section ImportFacts.

Context (env : Env).
Implicit Types (w : world env) (name p : string).

Lemma same_interpreter_refl w : same_interpreter env w w.
Proof. repeat split. Qed.

Lemma same_interpreter_trans w1 w2 w3 :
  same_interpreter env w1 w2 -> same_interpreter env w2 w3 ->
  same_interpreter env w1 w3.
Proof.
  unfold same_interpreter. intros (A1 & A2 & A3 & A4) (B1 & B2 & B3 & B4).
  repeat split; congruence.
Qed.

Lemma no_copy_refl w : no_copy env w w.
Proof. exists []. split; [by rewrite app_nil_r | done]. Qed.

Lemma no_copy_trans w1 w2 w3 :
  no_copy env w1 w2 -> no_copy env w2 w3 -> no_copy env w1 w3.
Proof.
  intros (n1 & H1 & C1) (n2 & H2 & C2). exists (n1 ++ n2). split.
  - rewrite H2, H1. by rewrite app_assoc.
  - unfold copy_calls in *. rewrite omap_app, C1, C2. done.
Qed.

Lemma calls_since_app w w' new :
  calls env w' = calls env w ++ new -> calls_since env w w' = new.
Proof. unfold calls_since. intros ->. by rewrite drop_app_length. Qed.

Lemma import_one_run full p w :
  match import_one env full p w with
  | (Ok _, w') =>
      sys_modules env w' = {[p]} ∪ sys_modules env w
  | (Raise _, w') => sys_modules env w' = sys_modules env w
  end /\
  same_interpreter env w (snd (import_one env full p w)) /\
  no_copy env w (snd (import_one env full p w)).
Proof.
  unfold import_one, bind, gets, run_find_module, modify, pass, ret, raise.
  simpl. case_bool_decide as Hin; simpl.
  - split; [set_solver | split; [apply same_interpreter_refl | apply no_copy_refl]].
  - destruct (find_module env (sys_path env w) p (ext env w)) as [o x] eqn:Hf.
    simpl.
    assert (Hlog : no_copy env w (set_ext env x (log env (EvFindModule p) w))).
    { exists [EvFindModule p]. split; reflexivity. }
    destruct o; simpl; (split; [reflexivity | split; [repeat split | exact Hlog]]).
Qed.

Lemma import_chain_run full l w :
  sys_modules env w ⊆ sys_modules env (snd (import_chain env full l w)) /\
  (fst (import_chain env full l w) = Ok tt ->
   forall p, p ∈ l ->
             p ∈ sys_modules env (snd (import_chain env full l w))) /\
  same_interpreter env w (snd (import_chain env full l w)) /\
  no_copy env w (snd (import_chain env full l w)).
Proof.
  revert w. induction l as [|p rest IH]; intros w; simpl.
  - unfold pass, ret. simpl. repeat split; try set_solver.
    apply no_copy_refl.
  - unfold bind. pose proof (import_one_run full p w) as (Hm & Hs & Hc).
    destruct (import_one env full p w) as [[[]|e] w1]; simpl in *.
    + destruct (IH w1) as (Hsub & Hall & Hs' & Hc').
      split; [set_solver | split; [| split]].
      * intros Hok q Hq. apply elem_of_cons in Hq as [->|Hq].
        -- apply Hsub. set_solver.
        -- by apply Hall.
      * eapply same_interpreter_trans; [exact Hs | exact Hs'].
      * eapply no_copy_trans; [exact Hc | exact Hc'].
    + split; [set_solver | split; [discriminate | split; assumption]].
Qed.

Lemma dotted_parents_top_level seen s :
  top_level s -> dotted_parents seen s = [].
Proof.
  unfold top_level. revert seen. induction s as [|c rest IH]; intros seen H.
  - reflexivity.
  - simpl in *. apply orb_false_iff in H as [Hc Hrest].
    rewrite Hc. by apply IH.
Qed.

Lemma py_import_frame name w :
  sys_modules env w ⊆ sys_modules env (snd (py_import env name w)) /\
  same_interpreter env w (snd (py_import env name w)) /\
  no_copy env w (snd (py_import env name w)).
Proof.
  unfold py_import. destruct (PyStr.is_empty name).
  - simpl. split; [done | split; [apply same_interpreter_refl | apply no_copy_refl]].
  - destruct (import_chain_run name (package_chain name) w)
      as (H1 & _ & H2 & H3).
    auto.
Qed.

Lemma py_import_loaded name w :
  importable env name w -> name ∈ sys_modules env (snd (py_import env name w)).
Proof.
  unfold importable, py_import. destruct (PyStr.is_empty name).
  - discriminate.
  - intros Hok.
    destruct (import_chain_run name (package_chain name) w)
      as (_ & Hall & _).
    apply Hall; [exact Hok |]. unfold package_chain. set_solver.
Qed.

Lemma py_import_top_level name w :
  top_level name ->
  match py_import env name w with
  | (Ok _, w') => sys_modules env w' = {[name]} ∪ sys_modules env w
  | (Raise _, w') => sys_modules env w' = sys_modules env w
  end.
Proof.
  intros Htop. unfold py_import. destruct (PyStr.is_empty name).
  - reflexivity.
  - unfold package_chain. rewrite dotted_parents_top_level by exact Htop.
    simpl. unfold bind, pass, ret.
    pose proof (import_one_run name name w) as (Hm & _).
    destruct (import_one env name name w) as [[[]|e] w1]; exact Hm.
Qed.

(** *** [validate_name], statement by statement *)

Lemma validate_name_run name w :
  validate_name env name w =
  if PyStr.is_empty name
  then (Raise (mkExc BadCommand no_name_message), w)
  else
    match py_import env name w with
    | (Ok _, w') => (Raise (mkExc BadCommand (collision_message name)), w')
    | (Raise e, w') =>
        if isinstance e ImportError then (Ok true, w') else (Raise e, w')
    end.
Proof.
  unfold validate_name, bind, try_except_class, try_except, pass, ret, raise.
  destruct (PyStr.is_empty name); [reflexivity |].
  destruct (py_import env name w) as [[[]|e] w1]; simpl.
  - reflexivity.
  - destruct (isinstance e ImportError); reflexivity.
Qed.

Lemma is_empty_spec name : PyStr.is_empty name = true <-> name = EmptyString.
Proof. destruct name; simpl; split; congruence. Qed.

Lemma importable_not_empty name w : importable env name w -> name <> EmptyString.
Proof. intros H ->. discriminate H. Qed.

Lemma validate_name_importable name w :
  importable env name w ->
  fst (validate_name env name w) =
    Raise (mkExc BadCommand (collision_message name)).
Proof.
  intros Hok. rewrite validate_name_run.
  destruct (PyStr.is_empty name) eqn:Hempty.
  - apply is_empty_spec in Hempty. by apply importable_not_empty in Hok.
  - unfold importable in Hok.
    destruct (py_import env name w) as [[[]|e0] w1]; [reflexivity |].
    discriminate Hok.
Qed.

End ImportFacts.

(** ** The name validator *)

(** C1, as the code has it. [validate_name] raises a usage error
    ([BadCommand]) if and only if the name is empty, or the import of the
    name goes through, or the import attempt itself raises a usage error
    (which, not being an [ImportError], passes through the [except] clause);
    it returns [True] for every non-empty name whose import raises
    [ImportError]; and any other exception of the import attempt is raised
    as it came. *)
Theorem validate_name_usage_error (env : Env) (name : string)
    (w : world env) :
  ((exists e, fst (validate_name env name w) = Raise e /\
              isinstance e BadCommand = true) <->
   (name = EmptyString \/ importable env name w \/
    exists e, fst (py_import env name w) = Raise e /\
              isinstance e ImportError = false /\
              isinstance e BadCommand = true)) /\
  (forall e, name <> EmptyString ->
             fst (py_import env name w) = Raise e ->
             isinstance e ImportError = true ->
             fst (validate_name env name w) = Ok true) /\
  (forall e, name <> EmptyString ->
             fst (py_import env name w) = Raise e ->
             isinstance e ImportError = false ->
             fst (validate_name env name w) = Raise e).
Proof.
  rewrite validate_name_run. unfold importable.
  destruct (PyStr.is_empty name) eqn:Hempty.
  - apply is_empty_spec in Hempty. subst name. split; [| split].
    + split; [intros _; by left |]. intros _. eexists. split; reflexivity.
    + intros e Hne. congruence.
    + intros e Hne. congruence.
  - assert (Hne : name <> EmptyString).
    { intros ->. discriminate Hempty. }
    destruct (py_import env name w) as [[[]|e0] w1]; simpl.
    + split; [| split].
      * split; [intros _; right; by left |].
        intros _. eexists. split; reflexivity.
      * intros e _ He. discriminate He.
      * intros e _ He. discriminate He.
    + destruct (isinstance e0 ImportError) eqn:Himp; simpl.
      * split; [| split].
        -- split.
           ++ intros (e & He & _). discriminate He.
           ++ intros [Hn | [Hok | (e & He & Hn & _)]];
                [contradiction | discriminate Hok |].
              injection He as <-. congruence.
        -- intros e _ He _. reflexivity.
        -- intros e _ He Hn. injection He as <-. congruence.
      * split; [| split].
        -- split.
           ++ intros (e & He & Hbad). injection He as <-.
              right. right. exists e0. auto.
           ++ intros [Hn | [Hok | (e & He & _ & Hbad)]];
                [contradiction | discriminate Hok |].
              injection He as <-. eauto.
        -- intros e _ He Hi. injection He as <-. congruence.
        -- intros e _ He _. injection He as <-. reflexivity.
Qed.

(** C7. When the name is importable, the usage error of [validate_name]
    carries a message in which the name occurs twice, quoted, before the
    routing line [map.connect('name', controller='my_name')] that ends it. *)
Theorem collision_message_shape (env : Env) (name : string) (w : world env) :
  importable env name w ->
  fst (validate_name env name w) =
    Raise (mkExc BadCommand (collision_message name)) /\
  (exists p1 p2 p3,
     collision_message name =
       p1 +:+ "'" +:+ name +:+ "'" +:+ p2 +:+ "'" +:+ name +:+ "'" +:+ p3 +:+
       "map.connect('" +:+ name +:+ "', controller='my_" +:+ name +:+ "')").
Proof.
  intros Hok. split.
  - by apply validate_name_importable.
  - exists (nl +:+ nl +:+ "A module named ").
    exists (" is already present in your PYTHON_PATH." +:+ nl +:+
            " Choosing a conflicting name will likely cause import problems in"
            +:+ nl +:+
            " your controller at some point. It's suggested that you choose an alternate"
            +:+ nl +:+
            "name, and if you'd like that name to be accessible as ").
    exists (", add a route" +:+ nl +:+
            "to your projects config/routing.py file similar to:" +:+ nl +:+
            "  ").
    reflexivity.
Qed.

(** C8, as the code has it. [validate_name] changes no state of its own:
    for an empty name the state is left exactly as it was (no import is
    attempted), and otherwise the state it leaves, returning or raising, is
    the state the one import attempt left.  That attempt is not undone: when
    the import goes through, the module is among the loaded modules
    afterwards. *)
Theorem validate_name_state (env : Env) (name : string) (w : world env) :
  (name = EmptyString -> snd (validate_name env name w) = w) /\
  (name <> EmptyString ->
   snd (validate_name env name w) = snd (py_import env name w)) /\
  (importable env name w ->
   name ∈ sys_modules env (snd (validate_name env name w))).
Proof.
  assert (Hstate : name <> EmptyString ->
            snd (validate_name env name w) = snd (py_import env name w)).
  { intros Hne. rewrite validate_name_run.
    destruct (PyStr.is_empty name) eqn:Hempty.
    { apply is_empty_spec in Hempty. contradiction. }
    destruct (py_import env name w) as [[[]|e0] w1]; simpl; [reflexivity |].
    by destruct (isinstance e0 ImportError). }
  split; [| split].
  - intros ->. reflexivity.
  - exact Hstate.
  - intros Hok. rewrite Hstate by (by eapply importable_not_empty).
    by apply py_import_loaded.
Qed.

Lemma validate_name_usage_error_witness :
  fst (validate_name Demo.env_g "trackback" (Demo.start Demo.env_g tt)) =
    Ok true /\
  fst (validate_name Demo.env_g "paster_plugin" (Demo.start Demo.env_g tt)) =
    Raise (mkExc BadCommand "plugin refused to load").
Proof.
  split.
  - apply (proj1 (proj2 (validate_name_usage_error Demo.env_g "trackback"
                           (Demo.start Demo.env_g tt))))
      with (e := mkExc ImportError "No module named trackback").
    + discriminate.
    + vm_compute. reflexivity.
    + reflexivity.
  - apply (proj2 (proj2 (validate_name_usage_error Demo.env_g "paster_plugin"
                           (Demo.start Demo.env_g tt)))).
    + discriminate.
    + vm_compute. reflexivity.
    + reflexivity.
Defined.

(** C1, as stated, fails: the module [paster_plugin] is found, but its code
    raises a [BadCommand]; [validate_name('paster_plugin')] then raises a
    usage error although the name is neither empty nor importable. *)
Lemma validate_name_usage_error_from_module :
  ~ ((exists msg,
        fst (validate_name Demo.env_g "paster_plugin"
               (Demo.start Demo.env_g tt)) = Raise (mkExc BadCommand msg)) <->
     ("paster_plugin" = EmptyString \/
      importable Demo.env_g "paster_plugin" (Demo.start Demo.env_g tt))).
Proof.
  intros [Honly _].
  destruct Honly as [Hempty | Hok].
  - exists "plugin refused to load". vm_compute. reflexivity.
  - discriminate Hempty.
  - vm_compute in Hok. discriminate Hok.
Qed.

Lemma collision_message_shape_witness :
  importable Demo.env_g "json" (Demo.start Demo.env_g tt) /\
  fst (validate_name Demo.env_g "json" (Demo.start Demo.env_g tt)) =
    Raise (mkExc BadCommand (collision_message "json")).
Proof.
  assert (H : importable Demo.env_g "json" (Demo.start Demo.env_g tt)).
  { vm_compute. reflexivity. }
  split; [exact H |].
  exact (proj1 (collision_message_shape Demo.env_g "json" _ H)).
Defined.

(** C8, as stated, fails: a fresh interpreter has no module loaded, and
    after [validate_name('json')] has raised its usage error the module
    [json] is still in [sys.modules]. *)
Lemma validate_name_leaves_module_loaded :
  sys_modules Demo.env_g
    (snd (validate_name Demo.env_g "json" (Demo.start Demo.env_g tt))) <>
  sys_modules Demo.env_g (Demo.start Demo.env_g tt).
Proof.
  intros Heq.
  assert (Hin : "json" ∈ sys_modules Demo.env_g
            (snd (validate_name Demo.env_g "json" (Demo.start Demo.env_g tt)))).
  { vm_compute. reflexivity. }
  rewrite Heq in Hin. vm_compute in Hin. discriminate Hin.
Qed.

Lemma validate_name_state_witness :
  snd (validate_name Demo.env_g EmptyString (Demo.start Demo.env_g tt)) =
    Demo.start Demo.env_g tt /\
  snd (validate_name Demo.env_g "trackback" (Demo.start Demo.env_g tt)) =
    snd (py_import Demo.env_g "trackback" (Demo.start Demo.env_g tt)) /\
  "json" ∈ sys_modules Demo.env_g
    (snd (validate_name Demo.env_g "json" (Demo.start Demo.env_g tt))).
Proof.
  split; [| split].
  - apply (proj1 (validate_name_state Demo.env_g EmptyString
                    (Demo.start Demo.env_g tt))).
    reflexivity.
  - apply (proj1 (proj2 (validate_name_state Demo.env_g "trackback"
                           (Demo.start Demo.env_g tt)))).
    discriminate.
  - apply (proj2 (proj2 (validate_name_state Demo.env_g "json"
                           (Demo.start Demo.env_g tt)))).
    vm_compute. reflexivity.
Defined.

(** ** The controller command *)

Section ControllerFacts.

Context (env : Env).
Implicit Types (w : world env) (name directory : string).

Lemma external_run {A} ev (f : E env -> result A * E env) w :
  external ev f w =
  (fst (f (ext env w)), set_ext env (snd (f (ext env w))) (log env ev w)).
Proof.
  unfold external. simpl. by destruct (f (ext env w)).
Qed.

Lemma validate_name_no_copy name w :
  no_copy env w (snd (validate_name env name w)).
Proof.
  rewrite validate_name_run. destruct (PyStr.is_empty name).
  - apply no_copy_refl.
  - pose proof (py_import_frame env name w) as (_ & _ & Hc).
    destruct (py_import env name w) as [[[]|e] w1]; simpl in *; [exact Hc |].
    by destruct (isinstance e ImportError).
Qed.

Lemma render_templates_run directory name no_test w :
  let fo := controller_file_op env directory name in
  let first :=
    copy_file env fo "controller.py_tmpl"
      (OsPath.join "controllers" directory) name (ext env w) in
  let w1 := set_ext env (snd first) (log env (controller_call env directory name) w) in
  render_templates env directory name no_test w =
  match fst first with
  | Raise e => (Raise e, w1)
  | Ok _ =>
      if no_test then (Ok tt, w1)
      else
        let second :=
          copy_file env fo "test_controller.py_tmpl"
            (OsPath.join "tests" "functional")
            ("test_" +:+ testname directory name) (snd first) in
        (fst second,
         set_ext env (snd second) (log env (test_call env directory name) w1))
  end.
Proof.
  intros fo first w1. unfold render_templates, bind, file_op_copy_file.
  rewrite external_run. fold fo. fold first. simpl.
  destruct (fst first) as [[]|e]; [| reflexivity].
  destruct no_test; simpl; [reflexivity |].
  rewrite external_run. reflexivity.
Qed.

Lemma controller_body_run args no_test w :
  controller_body env args no_test w =
  match args with
  | [] => (Raise (mkExc BadCommand no_egg_info_message), w)
  | arg :: _ =>
      let parsed := parse_path_name_args env arg (ext env w) in
      let w0 := set_ext env (snd parsed) (log env (EvParsePath arg) w) in
      match fst parsed with
      | Raise _ => (Raise (mkExc BadCommand no_egg_info_message), w0)
      | Ok (name, directory) =>
          let name := PyStr.replace "-" "_" name in
          match validate_name env name w0 with
          | (Raise e, w1) => (Raise e, w1)
          | (Ok _, w1) => render_templates env directory name no_test w1
          end
      end
  end.
Proof.
  unfold controller_body, bind, try_except, args_getitem0.
  destruct args as [|arg rest]; [reflexivity |].
  unfold ret at 1. rewrite external_run. simpl.
  destruct (fst (parse_path_name_args env arg (ext env w)))
    as [[name directory]|e]; [| reflexivity].
  destruct (validate_name env _ _) as [[b|e] w1]; reflexivity.
Qed.

Lemma controller_command_run args no_test w :
  ControllerCommand.command env args no_test w =
  match controller_body env args no_test w with
  | (Ok _, w') => (Ok tt, w')
  | (Raise e, w') => (Raise (mkExc BadCommand (unknown_error_message e)), w')
  end.
Proof.
  unfold ControllerCommand.command, try_except, raise.
  by destruct (controller_body env args no_test w) as [[[]|e] w'].
Qed.

End ControllerFacts.

Section ControllerCalls.

Context (env : Env).
Implicit Types (w : world env) (name directory : string).

Lemma since_no_copy w w1 w2 extra :
  no_copy env w w1 ->
  calls env w2 = calls env w1 ++ extra ->
  calls env w2 = calls env w ++ calls_since env w w2 /\
  copy_calls (calls_since env w w2) = copy_calls extra.
Proof.
  intros (new & Hnew & Hnone) Hextra.
  assert (Hall : calls env w2 = calls env w ++ (new ++ extra)).
  { rewrite Hextra, Hnew. by rewrite app_assoc. }
  rewrite (calls_since_app env w w2 _ Hall). split; [exact Hall |].
  unfold copy_calls in *. by rewrite omap_app, Hnone.
Qed.

Lemma parse_no_copy arg (x : E env) w :
  no_copy env w (set_ext env x (log env (EvParsePath arg) w)).
Proof. exists [EvParsePath arg]. split; reflexivity. Qed.

End ControllerCalls.

(** C5. With [--no-test], whatever the arguments and the state, the command
    makes no [copy_file] call for the test template: when it returns it has
    made exactly one [copy_file] call, for the controller template, and when
    it raises it has made that one call or none. *)
Theorem no_test_renders_controller_only (env : Env) (args : list string)
    (w : world env) :
  let r := ControllerCommand.command env args true w in
  calls env (snd r) = calls env w ++ calls_since env w (snd r) /\
  match fst r with
  | Ok _ =>
      exists dest filename,
        copy_calls (calls_since env w (snd r)) =
          [("controller.py_tmpl", dest, filename)]
  | Raise _ =>
      copy_calls (calls_since env w (snd r)) = [] \/
      exists dest filename,
        copy_calls (calls_since env w (snd r)) =
          [("controller.py_tmpl", dest, filename)]
  end.
Proof.
  simpl. rewrite controller_command_run, controller_body_run.
  destruct args as [|arg rest]; simpl.
  { destruct (since_no_copy env w w w [] (no_copy_refl env w)) as (H1 & H2).
    - by rewrite app_nil_r.
    - split; [exact H1 | left; exact H2]. }
  set (parsed := parse_path_name_args env arg (ext env w)).
  set (w0 := set_ext env (snd parsed) (log env (EvParsePath arg) w)).
  assert (H0 : no_copy env w w0) by apply parse_no_copy.
  destruct (fst parsed) as [[name directory]|e0]; simpl.
  2:{ destruct (since_no_copy env w w0 w0 [] H0) as (H1 & H2).
      - by rewrite app_nil_r.
      - split; [exact H1 | left; exact H2]. }
  pose proof (validate_name_no_copy env (PyStr.replace "-" "_" name) w0) as Hv.
  destruct (validate_name env (PyStr.replace "-" "_" name) w0)
    as [[b|e1] w1]; simpl in *.
  2:{ destruct (since_no_copy env w w1 w1 []) as (H1 & H2).
      - eapply no_copy_trans; [exact H0 | exact Hv].
      - by rewrite app_nil_r.
      - split; [exact H1 | left; exact H2]. }
  assert (H01 : no_copy env w w1).
  { eapply no_copy_trans; [exact H0 | exact Hv]. }
  rewrite render_templates_run. simpl.
  set (first := copy_file env _ _ _ _ (ext env w1)).
  set (w2 := set_ext env (snd first) (log env _ w1)).
  destruct (since_no_copy env w w1 w2
              [controller_call env directory (PyStr.replace "-" "_" name)] H01)
    as (H1 & H2); [reflexivity |].
  destruct (fst first) as [[]|e2]; simpl;
    (split; [exact H1 |]); [| right]; eexists _, _; exact H2.
Qed.

Section TestName.

Lemma replace_tail old new s :
  PyStr.tail (PyStr.replace old new s) = PyStr.replace old new (PyStr.tail s).
Proof. by destruct s. Qed.

Lemma fullname_absolute directory name :
  PyStr.startswith OsPath.sep (fullname directory name) = true.
Proof.
  unfold fullname.
  destruct (PyStr.startswith OsPath.sep (OsPath.join directory name)) eqn:H;
    simpl; [exact H | reflexivity].
Qed.

(** The flattened name: the absolute form of the joined path without its
    leading separator, every other separator turned into an underscore. *)
Lemma testname_flattened directory name :
  testname directory name =
  PyStr.replace OsPath.sep "_" (PyStr.tail (fullname directory name)).
Proof. unfold testname. apply replace_tail. Qed.

End TestName.

Section ValidateNotFound.

Context (env : Env).
Implicit Types (w : world env) (name : string).

Lemma validate_name_not_found name w :
  name <> EmptyString ->
  top_level name ->
  name ∉ sys_modules env w ->
  fst (find_module env (sys_path env w) name (ext env w)) = NotFound ->
  validate_name env name w =
  (Ok true,
   set_ext env (snd (find_module env (sys_path env w) name (ext env w)))
     (log env (EvFindModule name) w)).
Proof.
  intros Hne Htop Hnotin Hfind. rewrite validate_name_run.
  destruct (PyStr.is_empty name) eqn:Hempty.
  { apply is_empty_spec in Hempty. contradiction. }
  unfold py_import. rewrite Hempty. unfold package_chain.
  rewrite dotted_parents_top_level by exact Htop. simpl.
  unfold bind, import_one, bind, gets, run_find_module. simpl.
  rewrite bool_decide_eq_false_2 by exact Hnotin.
  destruct (find_module env (sys_path env w) name (ext env w)) as [o x].
  simpl in *. subst o. reflexivity.
Qed.

End ValidateNotFound.

(** C2. The controller command on [admin/trackback], parsed into the name
    [trackback] and the directory [admin], when no module [trackback] is
    loaded or found and the controller template renders: the [copy_file]
    calls made are the controller template to [controllers/admin] under the
    file name [trackback], followed, unless [--no-test] is given, by the test
    template to [tests/functional] under [test_admin_trackback].  The test
    name is, for every directory and name, the absolute form of the joined
    path with its leading separator dropped and the separators left turned
    into underscores. *)
Theorem controller_admin_trackback (env : Env) (no_test : bool)
    (w : world env) :
  let parsed := parse_path_name_args env "admin/trackback" (ext env w) in
  fst parsed = Ok ("trackback", "admin") ->
  "trackback" ∉ sys_modules env w ->
  fst (find_module env (sys_path env w) "trackback" (snd parsed)) = NotFound ->
  (forall fo x,
     fst (copy_file env fo "controller.py_tmpl" "controllers/admin"
            "trackback" x) = Ok tt) ->
  let r := ControllerCommand.command env ["admin/trackback"] no_test w in
  calls env (snd r) = calls env w ++ calls_since env w (snd r) /\
  copy_calls (calls_since env w (snd r)) =
    ("controller.py_tmpl", "controllers/admin", "trackback") ::
    (if no_test then []
     else [("test_controller.py_tmpl", "tests/functional",
            "test_admin_trackback")]) /\
  (forall directory name,
     PyStr.startswith OsPath.sep (fullname directory name) = true /\
     testname directory name =
       PyStr.replace OsPath.sep "_" (PyStr.tail (fullname directory name))).
Proof.
  intros parsed Hparse Hnotin Hfind Hcopy r.
  assert (Hflat : forall directory name,
            PyStr.startswith OsPath.sep (fullname directory name) = true /\
            testname directory name =
              PyStr.replace OsPath.sep "_"
                (PyStr.tail (fullname directory name))).
  { intros. split; [apply fullname_absolute | apply testname_flattened]. }
  subst r. rewrite controller_command_run, controller_body_run.
  cbv zeta. fold parsed. rewrite Hparse.
  set (w0 := set_ext env (snd parsed) (log env (EvParsePath "admin/trackback") w)).
  change (PyStr.replace "-" "_" "trackback") with "trackback".
  rewrite (validate_name_not_found env "trackback" w0);
    [| discriminate | reflexivity | exact Hnotin | exact Hfind].
  set (w1 := set_ext env _ (log env (EvFindModule "trackback") w0)).
  assert (H01 : no_copy env w w1).
  { exists [EvParsePath "admin/trackback"; EvFindModule "trackback"].
    split; [| reflexivity]. simpl. by rewrite <- app_assoc. }
  rewrite render_templates_run. cbv zeta.
  change (OsPath.join "controllers" "admin") with "controllers/admin".
  rewrite Hcopy.
  set (w2 := set_ext env _ (log env (controller_call env "admin" "trackback") w1)).
  destruct no_test; cbn [fst snd negb].
  - destruct (since_no_copy env w w1 w2
                [controller_call env "admin" "trackback"] H01) as (H1 & H2);
      [reflexivity |].
    split; [exact H1 | split; [rewrite H2; reflexivity | exact Hflat]].
  - set (w3 := set_ext env _ (log env (test_call env "admin" "trackback") w2)).
    destruct (since_no_copy env w w1 w3
                [controller_call env "admin" "trackback";
                 test_call env "admin" "trackback"] H01) as (H1 & H2).
    { simpl. by rewrite <- app_assoc. }
    match goal with
    | |- context [match ?second with Ok _ => _ | Raise _ => _ end] =>
        destruct second as [[]|e]
    end; cbn [fst snd];
      (split; [exact H1 | split; [rewrite H2; reflexivity | exact Hflat]]).
Qed.

Lemma controller_admin_trackback_witness :
  copy_calls
    (calls_since Demo.env_g (Demo.start Demo.env_g tt)
       (snd (ControllerCommand.command Demo.env_g ["admin/trackback"] false
               (Demo.start Demo.env_g tt)))) =
  [("controller.py_tmpl", "controllers/admin", "trackback");
   ("test_controller.py_tmpl", "tests/functional", "test_admin_trackback")].
Proof.
  apply (controller_admin_trackback Demo.env_g false
           (Demo.start Demo.env_g tt)).
  - reflexivity.
  - vm_compute. discriminate.
  - reflexivity.
  - reflexivity.
Defined.

(** C4, as the code has it. Every exception that leaves the body of the
    command is caught and a [BadCommand] is raised in its place whose
    message is [An unknown error ocurred, ] followed by the message of the
    exception caught.  An exception of the validator, its collision error
    with the routing suggestion included, and an exception of either
    [copy_file] call reach the outer handler as they were raised, so the user
    gets their message behind that prefix.  An exception raised while the
    argument is parsed (or the missing argument) does not: the inner handler
    has replaced it by [No egg_info directory was found], and its own
    message is lost. *)
Theorem controller_failure_messages (env : Env) (no_test : bool)
    (w : world env) :
  (forall args,
     (args = [] \/
      exists arg rest e,
        args = arg :: rest /\
        fst (parse_path_name_args env arg (ext env w)) = Raise e) ->
     fst (ControllerCommand.command env args no_test w) =
       Raise (mkExc BadCommand
                ("An unknown error ocurred, " +:+
                 "No egg_info directory was found"))) /\
  (forall arg rest name directory,
     let parsed := parse_path_name_args env arg (ext env w) in
     let w0 := set_ext env (snd parsed) (log env (EvParsePath arg) w) in
     let name' := PyStr.replace "-" "_" name in
     let r := ControllerCommand.command env (arg :: rest) no_test w in
     fst parsed = Ok (name, directory) ->
     (forall e,
        fst (validate_name env name' w0) = Raise e ->
        fst r = Raise (mkExc BadCommand
                         ("An unknown error ocurred, " +:+ exc_str e))) /\
     (importable env name' w0 ->
      fst r = Raise (mkExc BadCommand
                       ("An unknown error ocurred, " +:+
                        collision_message name'))) /\
     (fst (validate_name env name' w0) = Ok true ->
      let fo := controller_file_op env directory name' in
      let first :=
        copy_file env fo "controller.py_tmpl"
          (OsPath.join "controllers" directory) name'
          (ext env (snd (validate_name env name' w0))) in
      let second :=
        copy_file env fo "test_controller.py_tmpl" "tests/functional"
          ("test_" +:+ testname directory name') (snd first) in
      (forall e,
         fst first = Raise e ->
         fst r = Raise (mkExc BadCommand
                          ("An unknown error ocurred, " +:+ exc_str e))) /\
      (forall e,
         fst first = Ok tt -> no_test = false -> fst second = Raise e ->
         fst r = Raise (mkExc BadCommand
                          ("An unknown error ocurred, " +:+ exc_str e))) /\
      (fst first = Ok tt -> no_test = true \/ fst second = Ok tt ->
       fst r = Ok tt))).
Proof.
  split.
  - intros args Hargs. rewrite controller_command_run, controller_body_run.
    destruct Hargs as [-> | (arg & rest & e & -> & Hparse)]; [reflexivity |].
    cbv zeta. rewrite Hparse. reflexivity.
  - intros arg rest name directory parsed w0 name' r Hparse. subst r.
    rewrite controller_command_run, controller_body_run. cbv zeta.
    fold parsed. rewrite Hparse. fold w0. fold name'.
    assert (Hraise : forall e,
              fst (validate_name env name' w0) = Raise e ->
              fst (match
                     match validate_name env name' w0 with
                     | (Ok _, w1) =>
                         render_templates env directory name' no_test w1
                     | (Raise e1, w1) => (Raise e1, w1)
                     end
                   with
                   | (Ok _, w') => (Ok tt, w')
                   | (Raise e1, w') =>
                       (Raise (mkExc BadCommand (unknown_error_message e1)),
                        w')
                   end) =
              Raise (mkExc BadCommand
                       ("An unknown error ocurred, " +:+ exc_str e))).
    { intros e He.
      destruct (validate_name env name' w0) as [[b|e1] w1]; simpl in He;
        [discriminate He |].
      injection He as ->. reflexivity. }
    split; [exact Hraise | split].
    + intros Himp. apply (Hraise (mkExc BadCommand (collision_message name'))).
      by apply validate_name_importable.
    + intros Hvalid.
      destruct (validate_name env name' w0) as [[b|e1] w1]; simpl in Hvalid;
        [| discriminate Hvalid].
      cbn [snd]. rewrite render_templates_run. cbv zeta.
      change (OsPath.join "tests" "functional") with "tests/functional".
      destruct (fst (copy_file env (controller_file_op env directory name')
                       "controller.py_tmpl"
                       (OsPath.join "controllers" directory) name'
                       (ext env w1))) as [[]|e2].
      * split; [intros e He; discriminate He | split].
        -- intros e _ -> Hsecond. cbn [negb]. cbn [fst]. rewrite Hsecond.
           reflexivity.
        -- intros _ [-> | Hsecond]; [reflexivity |].
           destruct no_test; [reflexivity |]. cbn [fst]. by rewrite Hsecond.
      * split; [| split].
        -- intros e He. injection He as ->. reflexivity.
        -- intros e He. discriminate He.
        -- intros He. discriminate He.
Qed.

Lemma controller_failure_messages_witness :
  fst (ControllerCommand.command Demo.env_g ["json"] false
         (Demo.start Demo.env_g tt)) =
    Raise (mkExc BadCommand
             ("An unknown error ocurred, " +:+ collision_message "json")) /\
  fst (ControllerCommand.command Demo.env_disk_full ["admin/trackback"] false
         (Demo.start Demo.env_disk_full tt)) =
    Raise (mkExc BadCommand
             "An unknown error ocurred, No space left on device") /\
  fst (ControllerCommand.command Scenario.env_test_unwritable
         ["admin/trackback"] false
         (Demo.start Scenario.env_test_unwritable tt)) =
    Raise (mkExc BadCommand
             "An unknown error ocurred, No space left on device") /\
  fst (ControllerCommand.command Scenario.env_test_unwritable
         ["admin/trackback"] true
         (Demo.start Scenario.env_test_unwritable tt)) = Ok tt /\
  fst (ControllerCommand.command Scenario.env_no_access ["admin/trackback"]
         false (Demo.start Scenario.env_no_access tt)) =
    Raise (mkExc BadCommand
             "An unknown error ocurred, No egg_info directory was found").
Proof.
  split; [| split; [| split; [| split]]].
  - apply (proj1 (proj2 (proj2 (controller_failure_messages Demo.env_g false
                                  (Demo.start Demo.env_g tt))
                           "json" [] "json" EmptyString eq_refl))).
    vm_compute. reflexivity.
  - apply (proj1 (proj2 (proj2 (proj2 (controller_failure_messages
                                         Demo.env_disk_full false
                                         (Demo.start Demo.env_disk_full tt))
                                  "admin/trackback" [] "trackback" "admin"
                                  eq_refl))
                    ltac:(vm_compute; reflexivity))
             Demo.disk_full).
    reflexivity.
  - apply (proj1 (proj2 (proj2 (proj2 (proj2 (controller_failure_messages
                                         Scenario.env_test_unwritable false
                                         (Demo.start
                                            Scenario.env_test_unwritable tt))
                                  "admin/trackback" [] "trackback" "admin"
                                  eq_refl))
                           ltac:(vm_compute; reflexivity)))
             Demo.disk_full); reflexivity.
  - apply (proj2 (proj2 (proj2 (proj2 (proj2 (controller_failure_messages
                                         Scenario.env_test_unwritable true
                                         (Demo.start
                                            Scenario.env_test_unwritable tt))
                                  "admin/trackback" [] "trackback" "admin"
                                  eq_refl))
                           ltac:(vm_compute; reflexivity))));
      [reflexivity | by left].
  - apply (proj1 (controller_failure_messages Scenario.env_no_access false
                    (Demo.start Scenario.env_no_access tt))).
    right. exists "admin/trackback", [], Scenario.no_access. by split.
Defined.

(** C4, as stated, fails: when [parse_path_name_args] raises
    [OSError('Permission denied')], the failure the user gets does not carry
    that message anywhere; it says that no egg_info directory was found. *)
Lemma controller_parse_message_lost :
  fst (parse_path_name_args Scenario.env_no_access "admin/trackback" tt) =
    Raise Scenario.no_access /\
  fst (ControllerCommand.command Scenario.env_no_access ["admin/trackback"]
         false (Demo.start Scenario.env_no_access tt)) =
    Raise (mkExc BadCommand
             "An unknown error ocurred, No egg_info directory was found") /\
  str_contains (exc_str Scenario.no_access)
    "An unknown error ocurred, No egg_info directory was found" = false.
Proof. repeat split. Qed.

(** ** The shell command *)

Section ShellFacts.

Context (env : Env).
Implicit Types (w : world env) (ld : loaded).

Lemma sys_modules_getitem_loaded name w :
  name ∈ sys_modules env w ->
  sys_modules_getitem env name w = (Ok (VModule name), w).
Proof.
  intros Hin. unfold sys_modules_getitem, bind, gets. simpl.
  by rewrite bool_decide_eq_true_2.
Qed.

Lemma probe_globals_run test_app w :
  probe_globals env test_app w =
  (Ok (probed (fst (get_root_g env test_app (ext env w)))),
   set_ext env (snd (get_root_g env test_app (ext env w)))
     (log env (EvProbe test_app) w)).
Proof.
  unfold probe_globals, try_except. rewrite external_run. simpl.
  by destruct (fst (get_root_g env test_app (ext env w))).
Qed.

(** The assembly once the project's modules are loaded. *)
Lemma shell_assemble_run ld w :
  ld_models_package ld ∈ sys_modules env w ->
  ld_helpers_package ld ∈ sys_modules env w ->
  let probe := get_root_g env (ld_test_app ld) (ext env w) in
  let w1 := set_ext env (snd probe) (log env (EvProbe (ld_test_app ld)) w) in
  let global_obj := probed (fst probe) in
  shell_assemble env ld w =
  if truthy global_obj
  then (Ok (make_banner env global_obj,
            <["g" := global_obj]> (base_namespace ld)),
        set_pylons_g env (global_obj :: pylons_g env w) w1)
  else (Ok (make_banner env global_obj, base_namespace ld), w1).
Proof.
  intros Hm Hh probe w1 global_obj.
  unfold shell_assemble, bind. rewrite probe_globals_run.
  fold probe. fold w1. fold global_obj.
  rewrite (sys_modules_getitem_loaded _ w1) by exact Hm.
  rewrite (sys_modules_getitem_loaded _ w1) by exact Hh.
  destruct (truthy global_obj); reflexivity.
Qed.

Lemma base_namespace_dom ld :
  dom (base_namespace ld) =
  {[ "model"; "mapper"; "h"; "wsgiapp"; "app"; "__name__" ]}.
Proof.
  unfold base_namespace, namespace_update, initial_locs.
  rewrite dom_union_L, !dom_insert_L, !dom_singleton_L. set_solver.
Qed.

End ShellFacts.

(** C6. The shell command without argument, when [development.ini] is not a
    file of the current directory, raises the usage error naming that file;
    at that point it has called no collaborator (so loaded no configuration
    and imported nothing) and changed nothing but its own verbosity. *)
Theorem shell_without_config (env : Env) (w : world env) :
  isfile env "development.ini" (ext env w) = false ->
  ShellCommand.command env [] w =
    (Raise (mkExc BadCommand
              (get_usage env +:+
               "Error: CONFIG_FILE not found at: ./development.ini" +:+ nl +:+
               "Please specify a CONFIG_FILE")),
     set_verbose env 3 w) /\
  calls env (snd (ShellCommand.command env [] w)) = calls env w /\
  sys_modules env (snd (ShellCommand.command env [] w)) = sys_modules env w /\
  config_stack env (snd (ShellCommand.command env [] w)) = config_stack env w /\
  sys_path env (snd (ShellCommand.command env [] w)) = sys_path env w.
Proof.
  intros Hfile.
  assert (Hrun : ShellCommand.command env [] w =
                 (Raise (mkExc BadCommand (config_not_found_message env)),
                  set_verbose env 3 w)).
  { unfold ShellCommand.command, shell_config_file, default_config_file, bind,
      modify, gets. simpl. rewrite Hfile. reflexivity. }
  rewrite Hrun. repeat split.
Qed.

Lemma shell_without_config_witness :
  fst (ShellCommand.command Demo.env_g [] (Demo.start Demo.env_g tt)) =
    Raise (mkExc BadCommand
             ("Usage: paster shell [CONFIG_FILE]" +:+ nl +:+
              "Error: CONFIG_FILE not found at: ./development.ini" +:+ nl +:+
              "Please specify a CONFIG_FILE")) /\
  calls Demo.env_g
    (snd (ShellCommand.command Demo.env_g [] (Demo.start Demo.env_g tt))) = [].
Proof.
  destruct (shell_without_config Demo.env_g (Demo.start Demo.env_g tt))
    as (Hrun & Hcalls & _).
  - reflexivity.
  - split; [by rewrite Hrun | exact Hcalls].
Defined.

(** Once the project's modules are loaded, the assembly of the namespace
    does not raise, and the namespace is the five objects loaded, with the
    globals object when the probe found one. *)
Lemma shell_assemble_namespace (env : Env) (ld : loaded) (w : world env) :
  ld_models_package ld ∈ sys_modules env w ->
  ld_helpers_package ld ∈ sys_modules env w ->
  let probe := fst (get_root_g env (ld_test_app ld) (ext env w)) in
  exists banner locs,
    fst (shell_assemble env ld w) = Ok (banner, locs) /\
    locs !! "model" = Some (VModule (ld_models_package ld)) /\
    locs !! "mapper" = Some (ld_mapper ld) /\
    locs !! "h" = Some (VModule (ld_helpers_package ld)) /\
    locs !! "wsgiapp" = Some (ld_wsgiapp ld) /\
    locs !! "app" = Some (ld_test_app ld) /\
    ("g" ∈ dom locs <-> exists v, probe = Ok v /\ truthy v = true) /\
    (forall e, probe = Raise e ->
               locs = base_namespace ld /\ banner = make_banner env VNone).
Proof.
  intros Hm Hh probe. rewrite (shell_assemble_run env ld w Hm Hh).
  cbv zeta. fold probe.
  assert (Hbase : "g" ∉ dom (base_namespace ld)).
  { rewrite base_namespace_dom. set_solver. }
  destruct (truthy (probed probe)) eqn:Htruth; simpl.
  - eexists _, _. split; [reflexivity |].
    unfold base_namespace, namespace_update, initial_locs.
    repeat (split; [by simplify_map_eq |]). split; [split |].
    + intros _. destruct probe as [v|e]; simpl in *; [eauto | discriminate].
    + intros _. rewrite dom_insert_L. set_solver.
    + intros e He. rewrite He in Htruth. discriminate Htruth.
  - eexists _, _. split; [reflexivity |].
    unfold base_namespace, namespace_update, initial_locs.
    repeat (split; [by simplify_map_eq |]).
    fold (namespace_update ld (VModule (ld_models_package ld))
            (VModule (ld_helpers_package ld))).
    fold initial_locs. fold (base_namespace ld). split; [split |].
    + intros Hin. contradiction.
    + intros (v & Hv & Ht). rewrite Hv in Htruth. simpl in Htruth. congruence.
    + intros e He. rewrite He. split; reflexivity.
Qed.

(** ** What a sequence of statements leaves alone *)

Section Preserve.

Context (env : Env).
Variable I : world env -> world env -> Prop.
Hypothesis I_refl : forall w, I w w.
Hypothesis I_trans : forall w1 w2 w3, I w1 w2 -> I w2 w3 -> I w1 w3.
Hypothesis I_external :
  forall w x ev, I w (set_ext env x (log env ev w)).

Lemma preserves_external {A} ev (f : E env -> result A * E env) w :
  I w (snd (external ev f w)).
Proof. rewrite external_run. apply I_external. Qed.

Lemma preserves_bind {A B} (m : M env A) (k : A -> M env B) w :
  I w (snd (m w)) ->
  (forall a w1, I w1 (snd (k a w1))) ->
  I w (snd (bind m k w)).
Proof.
  intros Hm Hk. unfold bind. specialize (Hk).
  destruct (m w) as [[a|e] w1]; simpl in *; [| exact Hm].
  eapply I_trans; [exact Hm | apply Hk].
Qed.

Lemma preserves_try_except {A} (m : M env A) (h : exc -> M env A) w :
  I w (snd (m w)) ->
  (forall e w1, I w1 (snd (h e w1))) ->
  I w (snd (try_except m h w)).
Proof.
  intros Hm Hh. unfold try_except.
  destruct (m w) as [[a|e] w1]; simpl in *; [exact Hm |].
  eapply I_trans; [exact Hm | apply Hh].
Qed.

Lemma preserves_try_except_class {A} (m : M env A) c (h : exc -> M env A) w :
  I w (snd (m w)) ->
  (forall e w1, I w1 (snd (h e w1))) ->
  I w (snd (try_except_class m c h w)).
Proof.
  intros Hm Hh. unfold try_except_class. apply preserves_try_except.
  - exact Hm.
  - intros e w1. destruct (isinstance e c); [apply Hh | apply I_refl].
Qed.

End Preserve.

Section ShellFrame.

Context (env : Env).
Implicit Types (w : world env) (ld : loaded).

(** [pylons.g] from [w] to [w']. *)
Let keeps_g w w' : Prop := pylons_g env w' = pylons_g env w.

Lemma keeps_g_refl w : keeps_g w w.
Proof. reflexivity. Qed.

Lemma keeps_g_trans w1 w2 w3 : keeps_g w1 w2 -> keeps_g w2 w3 -> keeps_g w1 w3.
Proof. unfold keeps_g. congruence. Qed.

Lemma keeps_g_external w (x : E env) ev :
  keeps_g w (set_ext env x (log env ev w)).
Proof. reflexivity. Qed.

Lemma py_import_keeps_g name w : keeps_g w (snd (py_import env name w)).
Proof.
  destruct (py_import_frame env name w) as (_ & (_ & _ & Hg & _) & _).
  exact Hg.
Qed.

Lemma import_all_keeps_g packs w : keeps_g w (snd (import_all env packs w)).
Proof.
  revert w. induction packs as [|pack rest IH]; intros w; simpl.
  - reflexivity.
  - apply (preserves_bind env keeps_g keeps_g_trans);
      [apply py_import_keeps_g | intros _ w1; apply IH].
Qed.

Lemma sys_modules_getitem_state name w :
  snd (sys_modules_getitem env name w) = w.
Proof.
  unfold sys_modules_getitem, bind, gets. simpl.
  by destruct (bool_decide (name ∈ sys_modules env w)).
Qed.

Lemma shell_load_keeps_g config_file w :
  pylons_g env (snd (shell_load env config_file w)) = pylons_g env w.
Proof.
  change (keeps_g w (snd (shell_load env config_file w))).
  unfold shell_load.
  repeat first
    [ apply import_all_keeps_g
    | rewrite sys_modules_getitem_state
    | apply (preserves_external env keeps_g keeps_g_external)
    | apply (preserves_bind env keeps_g keeps_g_trans); [| intros ? ?]
    | reflexivity ].
Qed.

Lemma shell_console_keeps_g banner locs w :
  pylons_g env (snd (shell_console env banner locs w)) = pylons_g env w.
Proof.
  change (keeps_g w (snd (shell_console env banner locs w))).
  unfold shell_console.
  repeat first
    [ apply py_import_keeps_g
    | apply (preserves_external env keeps_g keeps_g_external)
    | apply (preserves_try_except_class env keeps_g keeps_g_refl keeps_g_trans);
      [| intros ? ?]
    | apply (preserves_bind env keeps_g keeps_g_trans); [| intros ? ?]
    | reflexivity ].
Qed.

End ShellFrame.

Section ShellLoad.

Context (env : Env).
Implicit Types (w : world env) (ld : loaded).

Lemma bind_Ok_inv {A B} (m : M env A) (k : A -> M env B) w b w' :
  bind m k w = (Ok b, w') ->
  exists a w1, m w = (Ok a, w1) /\ k a w1 = (Ok b, w').
Proof.
  unfold bind. destruct (m w) as [[a|e] w1]; [eauto | discriminate].
Qed.

Lemma external_sys_modules {A} ev (f : E env -> result A * E env) w :
  sys_modules env (snd (external ev f w)) = sys_modules env w.
Proof. by rewrite external_run. Qed.

Lemma import_all_grows packs w :
  sys_modules env w ⊆ sys_modules env (snd (import_all env packs w)).
Proof.
  revert w. induction packs as [|pack rest IH]; intros w; simpl; [done |].
  unfold bind. destruct (py_import_frame env pack w) as (Hsub & _).
  destruct (py_import env pack w) as [[[]|e] w1]; simpl in *; [| done].
  specialize (IH w1). set_solver.
Qed.

Lemma import_all_loaded packs w w' :
  import_all env packs w = (Ok tt, w') ->
  forall p, p ∈ packs -> p ∈ sys_modules env w'.
Proof.
  revert w. induction packs as [|pack rest IH]; intros w Hrun p Hp.
  - by apply elem_of_nil in Hp.
  - simpl in Hrun. apply bind_Ok_inv in Hrun as ([] & w1 & Hpack & Hrest).
    apply elem_of_cons in Hp as [-> | Hp].
    + pose proof (py_import_loaded env pack w) as Hin.
      unfold importable in Hin. rewrite Hpack in Hin.
      specialize (Hin eq_refl). simpl in Hin.
      pose proof (import_all_grows rest w1) as Hgrow.
      rewrite Hrest in Hgrow. simpl in Hgrow. set_solver.
    + by apply (IH w1).
Qed.

(** When the loading goes through, the models and helpers packages of the
    project are in [sys.modules]: the assembly finds them there. *)
Lemma shell_load_modules config_file w ld w' :
  shell_load env config_file w = (Ok ld, w') ->
  ld_models_package ld ∈ sys_modules env w' /\
  ld_helpers_package ld ∈ sys_modules env w'.
Proof.
  unfold shell_load. intros H.
  repeat (apply bind_Ok_inv in H as (? & ? & ? & H); cbv beta in H).
  injection H as <- <-. simpl.
  repeat match goal with
         | Hs : external _ _ ?w1 = (_, ?w2) |- _ =>
             apply (f_equal snd) in Hs; simpl in Hs; subst w2
         | Hs : sys_modules_getitem _ _ ?w1 = (_, ?w2) |- _ =>
             apply (f_equal snd) in Hs;
             rewrite sys_modules_getitem_state in Hs; simpl in Hs; subst w2
         end.
  rewrite !external_sys_modules.
  match goal with
  | Hs : import_all _ _ _ = (Ok ?u, _) |- _ =>
      destruct u; pose proof (import_all_loaded _ _ _ Hs) as Hall
  end.
  split; apply Hall; set_solver.
Qed.

End ShellLoad.

Section ShellLaunch.

Context (env : Env).
Implicit Types (w : world env) (ld : loaded).

Lemma shell_config_file_state args w :
  snd (shell_config_file env args w) = w.
Proof.
  unfold shell_config_file, bind, gets. destruct args; simpl; [| reflexivity].
  by destruct (isfile env default_config_file (ext env w)).
Qed.

(** A launch that got its configuration file and loaded the project goes on
    with the assembly and, from there, the console. *)
Lemma shell_command_run args w config_file w1 ld w2 :
  shell_config_file env args (set_verbose env 3 w) = (Ok config_file, w1) ->
  shell_load env config_file w1 = (Ok ld, w2) ->
  ShellCommand.command env args w =
  match shell_assemble env ld w2 with
  | (Ok (banner, locs), w3) => shell_console env banner locs w3
  | (Raise e, w3) => (Raise e, w3)
  end.
Proof.
  intros Hconfig Hload. unfold ShellCommand.command, bind, modify. simpl.
  rewrite Hconfig, Hload.
  by destruct (shell_assemble env ld w2) as [[[banner locs]|e] w3].
Qed.

Lemma shell_launch_keeps_g args w config_file w1 ld w2 :
  shell_config_file env args (set_verbose env 3 w) = (Ok config_file, w1) ->
  shell_load env config_file w1 = (Ok ld, w2) ->
  pylons_g env w2 = pylons_g env w.
Proof.
  intros Hconfig Hload.
  apply (f_equal snd) in Hconfig, Hload. simpl in *.
  rewrite shell_config_file_state in Hconfig. subst w1 w2.
  by rewrite shell_load_keeps_g.
Qed.

End ShellLaunch.

(** C3. A shell launch that gets as far as the assembly of the namespace
    (the configuration file was settled and the project loaded) does not
    raise there and goes on to the console with a namespace that binds
    [model], [mapper], [h], [wsgiapp] and [app] to the objects loaded; the
    namespace has the key [g] exactly when the probe of the root path
    returned an object that is true; and when the probe raised, the
    namespace and the banner are those of a probe that found nothing. *)
Theorem shell_namespace_keys (env : Env) (args : list string)
    (w w1 w2 : world env) (config_file : string) (ld : loaded) :
  shell_config_file env args (set_verbose env 3 w) = (Ok config_file, w1) ->
  shell_load env config_file w1 = (Ok ld, w2) ->
  let probe := fst (get_root_g env (ld_test_app ld) (ext env w2)) in
  exists banner locs w3,
    shell_assemble env ld w2 = (Ok (banner, locs), w3) /\
    ShellCommand.command env args w = shell_console env banner locs w3 /\
    locs !! "model" = Some (VModule (ld_models_package ld)) /\
    locs !! "mapper" = Some (ld_mapper ld) /\
    locs !! "h" = Some (VModule (ld_helpers_package ld)) /\
    locs !! "wsgiapp" = Some (ld_wsgiapp ld) /\
    locs !! "app" = Some (ld_test_app ld) /\
    ("g" ∈ dom locs <-> exists v, probe = Ok v /\ truthy v = true) /\
    (forall e, probe = Raise e ->
               locs = base_namespace ld /\ banner = make_banner env VNone).
Proof.
  intros Hconfig Hload probe.
  destruct (shell_load_modules env _ _ _ _ Hload) as (Hm & Hh).
  destruct (shell_assemble_namespace env ld w2 Hm Hh)
    as (banner & locs & Hrun & Hkeys).
  rewrite (shell_command_run env args w config_file w1 ld w2 Hconfig Hload).
  destruct (shell_assemble env ld w2) as [[[banner' locs']|e] w3];
    simpl in Hrun; [| discriminate Hrun].
  injection Hrun as -> ->.
  exists banner, locs, w3. split; [reflexivity | split; [reflexivity |]].
  exact Hkeys.
Qed.

Lemma shell_namespace_keys_witness :
  exists banner locs w3,
    ShellCommand.command Demo.env_g ["development.ini"]
      (Demo.start Demo.env_g tt) =
      shell_console Demo.env_g banner locs w3 /\
    locs !! "model" = Some (VModule "myproj.models") /\
    "g" ∈ dom locs.
Proof.
  edestruct (shell_namespace_keys Demo.env_g ["development.ini"]
               (Demo.start Demo.env_g tt))
    as (banner & locs & w3 & _ & Hrun & Hmodel & _ & _ & _ & _ & Hg & _).
  - reflexivity.
  - vm_compute. reflexivity.
  - exists banner, locs, w3. split; [exact Hrun | split; [exact Hmodel |]].
    apply Hg. exists Demo.globals_obj. split; reflexivity.
Defined.

(** C10. In a shell launch that gets as far as the assembly of the
    namespace: when the probe returns an object that is true, that object
    is bound to [g] in the namespace and, when the command ends, [pylons.g]
    is the stack of before with that object pushed; when the probe returns
    an object that is false, or raises, [pylons.g] is, when the command
    ends, as it was before. *)
Theorem shell_pushes_globals (env : Env) (args : list string)
    (w w1 w2 : world env) (config_file : string) (ld : loaded) :
  shell_config_file env args (set_verbose env 3 w) = (Ok config_file, w1) ->
  shell_load env config_file w1 = (Ok ld, w2) ->
  let probe := fst (get_root_g env (ld_test_app ld) (ext env w2)) in
  let final := snd (ShellCommand.command env args w) in
  match probe with
  | Ok v =>
      if truthy v
      then (exists banner locs w3,
              shell_assemble env ld w2 = (Ok (banner, locs), w3) /\
              locs !! "g" = Some v) /\
           pylons_g env final = v :: pylons_g env w
      else pylons_g env final = pylons_g env w
  | Raise _ => pylons_g env final = pylons_g env w
  end.
Proof.
  intros Hconfig Hload probe final. subst final.
  destruct (shell_load_modules env _ _ _ _ Hload) as (Hm & Hh).
  rewrite (shell_command_run env args w config_file w1 ld w2 Hconfig Hload).
  rewrite (shell_assemble_run env ld w2 Hm Hh). cbv zeta. fold probe.
  rewrite <- (shell_launch_keeps_g env args w config_file w1 ld w2 Hconfig Hload).
  destruct probe as [v|e]; simpl.
  - destruct (truthy v); rewrite shell_console_keeps_g; [| reflexivity].
    split; [| reflexivity]. eexists _, _, _. split; [reflexivity |].
    apply lookup_insert_eq.
  - rewrite shell_console_keeps_g. reflexivity.
Qed.

Lemma shell_pushes_globals_witness :
  pylons_g Demo.env_g
    (snd (ShellCommand.command Demo.env_g ["development.ini"]
            (Demo.start Demo.env_g tt))) = [Demo.globals_obj] /\
  pylons_g Demo.env_no_g
    (snd (ShellCommand.command Demo.env_no_g ["development.ini"]
            (Demo.start Demo.env_no_g tt))) = [] /\
  pylons_g Demo.env_falsy_g
    (snd (ShellCommand.command Demo.env_falsy_g ["development.ini"]
            (Demo.start Demo.env_falsy_g tt))) = [].
Proof.
  split; [| split].
  - refine (proj2 (shell_pushes_globals Demo.env_g ["development.ini"]
                     (Demo.start Demo.env_g tt) _ _ _ _ _ _));
      [reflexivity | vm_compute; reflexivity].
  - refine (shell_pushes_globals Demo.env_no_g ["development.ini"]
              (Demo.start Demo.env_no_g tt) _ _ _ _ _ _);
      [reflexivity | vm_compute; reflexivity].
  - refine (shell_pushes_globals Demo.env_falsy_g ["development.ini"]
              (Demo.start Demo.env_falsy_g tt) _ _ _ _ _ _);
      [reflexivity | vm_compute; reflexivity].
Defined.

(** C9. Both console classes wrap the parent's [raw_input] without changing
    what it does: the state it leaves and the line it returns are the
    parent's, an end of input from the parent is raised again as [EOFError],
    and any other exception passes as it came. *)
Theorem raw_input_pass_through (env : Env) :
  pass_through env (CustomIPShell.raw_input env) /\
  pass_through env (CustomShell.raw_input env).
Proof.
  split; intros parent w;
    unfold CustomIPShell.raw_input, CustomShell.raw_input, try_except_class,
      try_except;
    destruct (parent w) as [[line|e] w1]; simpl; try done;
    destruct (isinstance e EOFError); simpl; eauto.
Qed.

(** * Further properties *)

(** ** Strings and the test name *)

Section StringFacts.

Implicit Types (s a b : string) (c old new : ascii).

Lemma app_String c a b : String c a +:+ b = String c (a +:+ b).
Proof. reflexivity. Qed.

Lemma replace_app old new a b :
  PyStr.replace old new (a +:+ b) =
  PyStr.replace old new a +:+ PyStr.replace old new b.
Proof.
  induction a as [|c a IH]; [reflexivity |].
  rewrite app_String. simpl. rewrite IH. reflexivity.
Qed.

Lemma replace_removes old new s :
  old <> new -> ~ occurs old (PyStr.replace old new s).
Proof.
  intros Hne. unfold occurs. induction s as [|c s IH]; simpl; [tauto |].
  intros [Hc | Hin]; [| tauto].
  destruct (Ascii.eqb_spec c old); congruence.
Qed.

Lemma replace_absent old new s :
  ~ occurs old s -> PyStr.replace old new s = s.
Proof.
  unfold occurs. induction s as [|c s IH]; simpl; [reflexivity |].
  intros Hno. destruct (Ascii.eqb_spec c old) as [-> | _]; [tauto |].
  f_equal. apply IH. tauto.
Qed.

Lemma occurs_tail c s : occurs c (PyStr.tail s) -> occurs c s.
Proof. unfold occurs. destruct s; simpl; tauto. Qed.

Lemma occurs_app c a b : occurs c (a +:+ b) <-> occurs c a \/ occurs c b.
Proof.
  unfold occurs. induction a as [|d a IH].
  - change (EmptyString +:+ b) with b. simpl. tauto.
  - rewrite app_String. simpl. tauto.
Qed.

Lemma app_assoc_str a b s : (a +:+ b) +:+ s = a +:+ b +:+ s.
Proof.
  induction a as [|c a IH]; [reflexivity |].
  rewrite !app_String. by rewrite IH.
Qed.

Lemma startswith_app c a b :
  a <> EmptyString ->
  PyStr.startswith c (a +:+ b) = PyStr.startswith c a.
Proof. destruct a; [congruence | reflexivity]. Qed.

Lemma join_empty_directory name : OsPath.join EmptyString name = name.
Proof. unfold OsPath.join. by destruct (PyStr.startswith OsPath.sep name). Qed.

Lemma join_relative directory name :
  directory <> EmptyString ->
  PyStr.endswith OsPath.sep directory = false ->
  PyStr.startswith OsPath.sep name = false ->
  OsPath.join directory name = directory +:+ OsPath.sep_str +:+ name.
Proof.
  intros Hne Hend Hstart. unfold OsPath.join. rewrite Hstart, Hend.
  by destruct directory.
Qed.

End StringFacts.

(** X1. The name of the test file never holds a path separator, whatever
    the directory and the name: the test is always a file directly under
    [tests/functional]. *)
Theorem testname_no_separator (directory name : string) :
  ~ occurs OsPath.sep (testname directory name) /\
  ~ occurs OsPath.sep ("test_" +:+ testname directory name).
Proof.
  assert (H : ~ occurs OsPath.sep (testname directory name)).
  { unfold testname. intros Hin. apply occurs_tail in Hin.
    revert Hin. by apply replace_removes. }
  split; [exact H |]. rewrite occurs_app. intros [Hin | Hin]; [| tauto].
  unfold occurs in Hin. simpl in Hin.
  repeat (destruct Hin as [Hin | Hin]; [discriminate Hin |]). exact Hin.
Qed.

(** X2. For a controller at the top of the [controllers] package (empty
    directory, relative name) the test name is the name with its separators
    turned into underscores: the name itself when it has none, as in
    [paster controller comments] and [test_comments]. *)
Theorem testname_top_level (name : string) :
  PyStr.startswith OsPath.sep name = false ->
  testname EmptyString name = PyStr.replace OsPath.sep "_" name /\
  (~ occurs OsPath.sep name -> testname EmptyString name = name).
Proof.
  intros Hrel.
  assert (H : testname EmptyString name = PyStr.replace OsPath.sep "_" name).
  { unfold testname, fullname. rewrite join_empty_directory, Hrel. simpl.
    reflexivity. }
  split; [exact H |]. intros Hno. rewrite H. by apply replace_absent.
Qed.

Lemma testname_top_level_witness :
  testname EmptyString "comments" = "comments".
Proof.
  apply (proj2 (testname_top_level "comments" eq_refl)).
  unfold occurs. simpl. intros H.
  repeat (destruct H as [H | H]; [discriminate H |]). exact H.
Defined.

(** X3. For a controller under a relative directory that does not end with
    a separator, and a relative name, the test name is the flattened
    directory, an underscore, and the flattened name. *)
Theorem testname_nested (directory name : string) :
  directory <> EmptyString ->
  PyStr.startswith OsPath.sep directory = false ->
  PyStr.endswith OsPath.sep directory = false ->
  PyStr.startswith OsPath.sep name = false ->
  testname directory name =
    PyStr.replace OsPath.sep "_" directory +:+ "_" +:+
    PyStr.replace OsPath.sep "_" name.
Proof.
  intros Hne Hrel Hend Hname. unfold testname, fullname.
  rewrite (join_relative directory name Hne Hend Hname).
  rewrite (startswith_app _ directory _ Hne), Hrel. simpl.
  change (EmptyString +:+ directory +:+ OsPath.sep_str +:+ name)
    with (directory +:+ OsPath.sep_str +:+ name).
  rewrite !replace_app. reflexivity.
Qed.

Lemma testname_nested_witness :
  testname "admin/blog" "trackback" = "admin_blog_trackback".
Proof.
  apply (testname_nested "admin/blog" "trackback");
    [discriminate | reflexivity | reflexivity | reflexivity].
Defined.

(** ** Imports and the validator *)

Section ImportRuns.

Context (env : Env).
Implicit Types (w : world env) (name p : string).

(** The import of a top-level module that is not loaded: one search, and
    [sys.modules] gains the module when it loads. *)
Lemma py_import_search name w :
  name <> EmptyString ->
  top_level name ->
  name ∉ sys_modules env w ->
  let found := find_module env (sys_path env w) name (ext env w) in
  let w1 := set_ext env (snd found) (log env (EvFindModule name) w) in
  py_import env name w =
  match fst found with
  | Loaded =>
      (Ok tt, set_sys_modules env ({[name]} ∪ sys_modules env w) w1)
  | NotFound =>
      (Raise (mkExc ImportError
                ("No module named " +:+ missing_name name name)),
       w1)
  | Broken e => (Raise e, w1)
  end.
Proof.
  intros Hne Htop Hnotin found w1. unfold py_import.
  destruct (PyStr.is_empty name) eqn:Hempty.
  { apply is_empty_spec in Hempty. contradiction. }
  unfold package_chain. rewrite dotted_parents_top_level by exact Htop.
  simpl. unfold bind, import_one, bind, gets, run_find_module. simpl.
  rewrite bool_decide_eq_false_2 by exact Hnotin.
  subst w1 found.
  destruct (find_module env (sys_path env w) name (ext env w)) as [[| |e] x];
    reflexivity.
Qed.

(** A chain of modules that are all loaded is imported without a search. *)
Lemma import_chain_cached full l w :
  (forall p, p ∈ l -> p ∈ sys_modules env w) ->
  import_chain env full l w = (Ok tt, w).
Proof.
  induction l as [|p rest IH]; intros Hall; [reflexivity |].
  simpl. unfold bind, import_one, bind, gets. simpl.
  rewrite bool_decide_eq_true_2 by (apply Hall; set_solver).
  unfold pass, ret. simpl. apply IH. intros q Hq. apply Hall. set_solver.
Qed.

Lemma py_import_state_ok name w w' :
  py_import env name w = (Ok tt, w') ->
  forall p, p ∈ package_chain name -> p ∈ sys_modules env w'.
Proof.
  unfold py_import. destruct (PyStr.is_empty name); [discriminate |].
  intros Hrun.
  destruct (import_chain_run env name (package_chain name) w)
    as (_ & Hall & _).
  rewrite Hrun in Hall. simpl in Hall. by apply Hall.
Qed.

End ImportRuns.

(** X4. A top-level module that is already in [sys.modules] is refused by
    [validate_name] with the collision message without any search: not one
    collaborator is called and the state is left exactly as it was. *)
Theorem validate_name_cached (env : Env) (name : string) (w : world env) :
  name <> EmptyString ->
  top_level name ->
  name ∈ sys_modules env w ->
  validate_name env name w =
    (Raise (mkExc BadCommand (collision_message name)), w).
Proof.
  intros Hne Htop Hin. rewrite validate_name_run.
  destruct (PyStr.is_empty name) eqn:Hempty.
  { apply is_empty_spec in Hempty. contradiction. }
  unfold py_import. rewrite Hempty. unfold package_chain.
  rewrite dotted_parents_top_level by exact Htop.
  rewrite import_chain_cached; [reflexivity |].
  intros p Hp. apply list_elem_of_singleton in Hp. by subst p.
Qed.

(** X5. When the module is found but its code raises an exception that is
    not an [ImportError], [validate_name] raises that very exception: not a
    usage error of its own, not [True]. *)
Theorem validate_name_broken_module (env : Env) (name : string)
    (w : world env) (e : exc) :
  name <> EmptyString ->
  top_level name ->
  name ∉ sys_modules env w ->
  fst (find_module env (sys_path env w) name (ext env w)) = Broken e ->
  isinstance e ImportError = false ->
  fst (validate_name env name w) = Raise e.
Proof.
  intros Hne Htop Hnotin Hfind Hcls. rewrite validate_name_run.
  destruct (PyStr.is_empty name) eqn:Hempty.
  { apply is_empty_spec in Hempty. contradiction. }
  rewrite (py_import_search env name w Hne Htop Hnotin). cbv zeta.
  rewrite Hfind, Hcls. reflexivity.
Qed.

(** X6. When the module is found but its own code raises an [ImportError]
    (a dependency of it is missing, say), [validate_name] takes the name
    for free and returns [True], although a module of that name is on the
    path. *)
Theorem validate_name_accepts_failing_module (env : Env) (name : string)
    (w : world env) (e : exc) :
  name <> EmptyString ->
  top_level name ->
  name ∉ sys_modules env w ->
  fst (find_module env (sys_path env w) name (ext env w)) = Broken e ->
  isinstance e ImportError = true ->
  fst (validate_name env name w) = Ok true.
Proof.
  intros Hne Htop Hnotin Hfind Hcls. rewrite validate_name_run.
  destruct (PyStr.is_empty name) eqn:Hempty.
  { apply is_empty_spec in Hempty. contradiction. }
  rewrite (py_import_search env name w Hne Htop Hnotin). cbv zeta.
  rewrite Hfind, Hcls. reflexivity.
Qed.

(** X7. An import that went through is remembered: in the state it leaves,
    [sys.modules[name]] finds the module, and importing the name again,
    dotted or not, succeeds without any search and changes nothing. *)
Theorem py_import_twice (env : Env) (name : string) (w w' : world env) :
  py_import env name w = (Ok tt, w') ->
  sys_modules_getitem env name w' = (Ok (VModule name), w') /\
  py_import env name w' = (Ok tt, w').
Proof.
  intros Hrun. pose proof (py_import_state_ok env name w w' Hrun) as Hall.
  split.
  - apply sys_modules_getitem_loaded. apply Hall.
    unfold package_chain. set_solver.
  - unfold py_import in *. destruct (PyStr.is_empty name); [discriminate |].
    by apply import_chain_cached.
Qed.

Lemma validate_name_cached_witness :
  validate_name Demo.env_g "json"
    (set_sys_modules Demo.env_g {["json"]} (Demo.start Demo.env_g tt)) =
  (Raise (mkExc BadCommand (collision_message "json")),
   set_sys_modules Demo.env_g {["json"]} (Demo.start Demo.env_g tt)).
Proof.
  apply (validate_name_cached Demo.env_g "json").
  - discriminate.
  - reflexivity.
  - vm_compute. reflexivity.
Defined.

Lemma validate_name_broken_module_witness :
  fst (validate_name Scenario.env_ok "bad_syntax"
         (Demo.start Scenario.env_ok tt)) = Raise Scenario.syntax_error.
Proof.
  apply (validate_name_broken_module Scenario.env_ok "bad_syntax"
           (Demo.start Scenario.env_ok tt) Scenario.syntax_error).
  - discriminate.
  - reflexivity.
  - vm_compute. discriminate.
  - reflexivity.
  - reflexivity.
Defined.

Lemma validate_name_accepts_failing_module_witness :
  fst (validate_name Scenario.env_ok "needs_dep"
         (Demo.start Scenario.env_ok tt)) = Ok true.
Proof.
  apply (validate_name_accepts_failing_module Scenario.env_ok "needs_dep"
           (Demo.start Scenario.env_ok tt) Scenario.missing_dependency).
  - discriminate.
  - reflexivity.
  - vm_compute. discriminate.
  - reflexivity.
  - reflexivity.
Defined.

Lemma py_import_twice_witness :
  py_import Demo.env_g "myproj.lib.helpers"
    (snd (py_import Demo.env_g "myproj.lib.helpers"
            (Demo.start Demo.env_g tt))) =
  (Ok tt,
   snd (py_import Demo.env_g "myproj.lib.helpers" (Demo.start Demo.env_g tt))).
Proof.
  apply (proj2 (py_import_twice Demo.env_g "myproj.lib.helpers"
                  (Demo.start Demo.env_g tt) _ eq_refl)).
Defined.

(** ** The controller command, whatever its arguments *)

Section ControllerShape.

Context (env : Env).
Implicit Types (w : world env) (name directory : string).

Lemma copy_calls_controller_call directory name :
  copy_calls [controller_call env directory name] =
  [controller_triple directory name].
Proof. reflexivity. Qed.

Lemma copy_calls_both_calls directory name :
  copy_calls [controller_call env directory name;
              test_call env directory name] =
  [controller_triple directory name; test_triple directory name].
Proof. reflexivity. Qed.

(** The [copy_file] calls of a run: none when the command failed before the
    rendering; the controller template alone when the test was not asked for
    or the command failed on the way; the controller template, then the test
    template. *)
Lemma controller_copy_calls_cases args no_test w :
  let r := ControllerCommand.command env args no_test w in
  let made := copy_calls (calls_since env w (snd r)) in
  calls env (snd r) = calls env w ++ calls_since env w (snd r) /\
  ((made = [] /\ exists e, fst r = Raise e) \/
   exists arg rest name directory,
     args = arg :: rest /\
     fst (parse_path_name_args env arg (ext env w)) = Ok (name, directory) /\
     ((made = [controller_triple directory (PyStr.replace "-" "_" name)] /\
       (no_test = true \/ exists e, fst r = Raise e)) \/
      (made = [controller_triple directory (PyStr.replace "-" "_" name);
               test_triple directory (PyStr.replace "-" "_" name)] /\
       no_test = false))).
Proof.
  cbv zeta. rewrite controller_command_run, controller_body_run.
  destruct args as [|arg rest]; simpl.
  { destruct (since_no_copy env w w w [] (no_copy_refl env w)) as (H1 & H2).
    - by rewrite app_nil_r.
    - split; [exact H1 | left; split; [exact H2 | eauto]]. }
  set (parsed := parse_path_name_args env arg (ext env w)).
  set (w0 := set_ext env (snd parsed) (log env (EvParsePath arg) w)).
  assert (H0 : no_copy env w w0) by apply parse_no_copy.
  destruct (fst parsed) as [[name directory]|e0] eqn:Hparse; simpl.
  2:{ destruct (since_no_copy env w w0 w0 [] H0) as (H1 & H2).
      - by rewrite app_nil_r.
      - split; [exact H1 | left; split; [exact H2 | eauto]]. }
  set (n := PyStr.replace "-" "_" name).
  pose proof (validate_name_no_copy env n w0) as Hv.
  destruct (validate_name env n w0) as [[b|e1] w1]; simpl in *.
  2:{ destruct (since_no_copy env w w1 w1 []) as (H1 & H2).
      - eapply no_copy_trans; [exact H0 | exact Hv].
      - by rewrite app_nil_r.
      - split; [exact H1 | left; split; [exact H2 | eauto]]. }
  assert (H01 : no_copy env w w1).
  { eapply no_copy_trans; [exact H0 | exact Hv]. }
  rewrite render_templates_run. cbv zeta.
  set (first := copy_file env _ _ _ _ (ext env w1)).
  set (w2 := set_ext env (snd first) (log env (controller_call env directory n) w1)).
  destruct (since_no_copy env w w1 w2 [controller_call env directory n] H01)
    as (H1 & H2); [reflexivity |].
  rewrite copy_calls_controller_call in H2.
  destruct (fst first) as [[]|e2]; cbn [fst snd].
  2:{ split; [exact H1 |]. right. exists arg, rest, name, directory.
      split; [reflexivity | split; [exact Hparse |]].
      left. split; [exact H2 | right; eauto]. }
  destruct no_test; cbn [fst snd negb].
  { split; [exact H1 |]. right. exists arg, rest, name, directory.
    split; [reflexivity | split; [exact Hparse |]].
    left. split; [exact H2 | by left]. }
  set (second := copy_file env _ _ _ _ (snd first)).
  set (w3 := set_ext env (snd second) (log env (test_call env directory n) w2)).
  destruct (since_no_copy env w w1 w3
              [controller_call env directory n; test_call env directory n] H01)
    as (H3 & H4).
  { simpl. by rewrite <- app_assoc. }
  rewrite copy_calls_both_calls in H4.
  destruct (fst second) as [[]|e3]; cbn [fst snd];
    (split; [exact H3 |]); right; exists arg, rest, name, directory;
    (split; [reflexivity | split; [exact Hparse |]]);
    right; (split; [exact H4 | reflexivity]).
Qed.

End ControllerShape.

(** X8. When the path cannot be parsed, because the command got no argument
    or because [parse_path_name_args] raised, whatever it raised, the
    command fails with the message that no egg_info directory was found
    (behind the prefix of the outer handler); the name is not validated and
    nothing is rendered. *)
Theorem controller_unparsed_argument (env : Env) (args : list string)
    (no_test : bool) (w : world env) :
  (args = [] \/
   exists arg rest e,
     args = arg :: rest /\
     fst (parse_path_name_args env arg (ext env w)) = Raise e) ->
  let r := ControllerCommand.command env args no_test w in
  fst r =
    Raise (mkExc BadCommand
             "An unknown error ocurred, No egg_info directory was found") /\
  (calls env (snd r) = calls env w \/
   exists arg, calls env (snd r) = calls env w ++ [EvParsePath arg]).
Proof.
  intros Hargs. cbv zeta.
  rewrite controller_command_run, controller_body_run.
  destruct Hargs as [-> | (arg & rest & e & -> & Hparse)].
  - split; [reflexivity | by left].
  - cbv zeta. rewrite Hparse. split; [reflexivity | right; eauto].
Qed.

Lemma controller_unparsed_argument_witness :
  fst (ControllerCommand.command Demo.env_g [] false
         (Demo.start Demo.env_g tt)) =
    Raise (mkExc BadCommand
             "An unknown error ocurred, No egg_info directory was found").
Proof.
  apply (controller_unparsed_argument Demo.env_g [] false
           (Demo.start Demo.env_g tt)).
  by left.
Defined.

(** X9. The test template is rendered only after the controller template,
    for the same directory and the same name, and only without [--no-test]:
    a run in which [copy_file] was called for the test template made exactly
    two [copy_file] calls, the controller one to
    [controllers/<directory>/<name>] first and then the test one to
    [tests/functional/test_<flattened name>]. *)
Theorem controller_test_after_controller (env : Env) (args : list string)
    (no_test : bool) (w : world env) (dest filename : string) :
  let r := ControllerCommand.command env args no_test w in
  ("test_controller.py_tmpl", dest, filename)
    ∈ copy_calls (calls_since env w (snd r)) ->
  no_test = false /\
  exists directory name,
    copy_calls (calls_since env w (snd r)) =
      [("controller.py_tmpl", OsPath.join "controllers" directory, name);
       ("test_controller.py_tmpl", "tests/functional",
        "test_" +:+ testname directory name)].
Proof.
  cbv zeta. intros Hin.
  destruct (controller_copy_calls_cases env args no_test w)
    as (_ & [(Hnone & _) | (arg & rest & name & directory & _ & _ & Hmade)]).
  - rewrite Hnone in Hin. by apply elem_of_nil in Hin.
  - destruct Hmade as [(Hone & _) | (Htwo & Hflag)].
    + rewrite Hone in Hin. apply list_elem_of_singleton in Hin.
      discriminate Hin.
    + split; [exact Hflag |]. eexists _, _. exact Htwo.
Qed.

Lemma controller_test_after_controller_witness :
  copy_calls
    (calls_since Demo.env_g (Demo.start Demo.env_g tt)
       (snd (ControllerCommand.command Demo.env_g ["admin/trackback"] false
               (Demo.start Demo.env_g tt)))) <> [].
Proof.
  destruct (controller_test_after_controller Demo.env_g ["admin/trackback"]
              false (Demo.start Demo.env_g tt) "tests/functional"
              "test_admin_trackback") as (_ & directory & name & Hmade).
  - vm_compute. apply list_elem_of_In. right. left. reflexivity.
  - rewrite Hmade. discriminate.
Defined.

(** X10. The controller file is never named with a hyphen: in every run, a
    [copy_file] call for the controller template goes to a directory under
    [controllers] with a file name in which the hyphens of the argument have
    become underscores. *)
Theorem controller_file_name_no_hyphen (env : Env) (args : list string)
    (no_test : bool) (w : world env) (dest filename : string) :
  let r := ControllerCommand.command env args no_test w in
  ("controller.py_tmpl", dest, filename)
    ∈ copy_calls (calls_since env w (snd r)) ->
  ~ occurs "-" filename /\
  exists arg rest name directory,
    args = arg :: rest /\
    fst (parse_path_name_args env arg (ext env w)) = Ok (name, directory) /\
    filename = PyStr.replace "-" "_" name /\
    dest = OsPath.join "controllers" directory.
Proof.
  cbv zeta. intros Hin.
  destruct (controller_copy_calls_cases env args no_test w)
    as (_ & [(Hnone & _) | (arg & rest & name & directory & -> & Hp & Hmade)]).
  { rewrite Hnone in Hin. by apply elem_of_nil in Hin. }
  assert (Hcall : ("controller.py_tmpl", dest, filename) =
                  controller_triple directory (PyStr.replace "-" "_" name)).
  { destruct Hmade as [(Hone & _) | (Htwo & _)].
    - rewrite Hone in Hin. by apply list_elem_of_singleton in Hin.
    - rewrite Htwo in Hin. apply elem_of_cons in Hin as [Hin | Hin];
        [exact Hin |].
      apply list_elem_of_singleton in Hin. discriminate Hin. }
  injection Hcall as -> ->. split.
  - apply replace_removes. discriminate.
  - exists arg, rest, name, directory. repeat split. exact Hp.
Qed.

Lemma controller_file_name_no_hyphen_witness :
  ~ occurs "-" "track_back".
Proof.
  apply (controller_file_name_no_hyphen Demo.env_g ["track-back"] true
           (Demo.start Demo.env_g tt) "controllers/" "track_back").
  vm_compute. apply list_elem_of_In. left. reflexivity.
Defined.

(** ** The shell command: configuration, banner, consoles *)

Section ShellConfig.

Context (env : Env).
Implicit Types (w : world env) (ld : loaded).

Lemma bind_Ok {A B} (m : M env A) (k : A -> M env B) w a w1 :
  m w = (Ok a, w1) -> bind m k w = k a w1.
Proof. unfold bind. by intros ->. Qed.

Lemma bind_Raise {A B} (m : M env A) (k : A -> M env B) w e w1 :
  m w = (Raise e, w1) -> bind m k w = (Raise e, w1).
Proof. unfold bind. by intros ->. Qed.

Lemma same_path_config_refl w : same_path_config env w w.
Proof. by split. Qed.

Lemma same_path_config_trans w1 w2 w3 :
  same_path_config env w1 w2 -> same_path_config env w2 w3 ->
  same_path_config env w1 w3.
Proof. unfold same_path_config. intros (A1 & A2) (B1 & B2). split; congruence. Qed.

Lemma same_path_config_external w (x : E env) ev :
  same_path_config env w (set_ext env x (log env ev w)).
Proof. by split. Qed.

Lemma py_import_same_path_config name w :
  same_path_config env w (snd (py_import env name w)).
Proof.
  destruct (py_import_frame env name w) as (_ & (H1 & H2 & _) & _). by split.
Qed.

Lemma import_all_same_path_config packs w :
  same_path_config env w (snd (import_all env packs w)).
Proof.
  revert w. induction packs as [|pack rest IH]; intros w; simpl.
  - apply same_path_config_refl.
  - apply (preserves_bind env _ (same_path_config_trans));
      [apply py_import_same_path_config | intros _ w1; apply IH].
Qed.

Lemma sys_modules_getitem_same_path_config name w :
  same_path_config env w (snd (sys_modules_getitem env name w)).
Proof. rewrite sys_modules_getitem_state. apply same_path_config_refl. Qed.

Ltac keep_path_config :=
  repeat first
    [ apply import_all_same_path_config
    | apply py_import_same_path_config
    | apply sys_modules_getitem_same_path_config
    | apply (preserves_external env _ same_path_config_external)
    | apply (preserves_try_except_class env _ same_path_config_refl
               same_path_config_trans); [| intros ? ?]
    | apply (preserves_try_except env _ same_path_config_trans);
      [| intros ? ?]
    | apply (preserves_bind env _ same_path_config_trans); [| intros ? ?]
    | apply same_path_config_refl
    | solve [split; reflexivity]
    | match goal with
      | |- context [if ?b then _ else _] => destruct b
      | |- context [let '(_, _) := ?p in _] => destruct p
      end ].

Lemma shell_assemble_same_path_config ld w :
  same_path_config env w (snd (shell_assemble env ld w)).
Proof. unfold shell_assemble, probe_globals. keep_path_config. Qed.

Lemma shell_console_same_path_config banner locs w :
  same_path_config env w (snd (shell_console env banner locs w)).
Proof. unfold shell_console. keep_path_config. Qed.

(** Once [appconfig] has returned, the rest of the loading, however it
    ends, leaves one more configuration on the stack and the working
    directory in front of [sys.path]. *)
Lemma shell_load_after_appconfig config_file w app_conf :
  let here := getcwd env (ext env w) in
  fst (appconfig env ("config:" +:+ config_file) here (ext env w)) =
    Ok app_conf ->
  config_stack env (snd (shell_load env config_file w)) =
    <["app_conf" := app_conf]> {[ "app" := app_conf ]} :: config_stack env w /\
  sys_path env (snd (shell_load env config_file w)) = here :: sys_path env w.
Proof.
  intros here Happ. unfold shell_load.
  erewrite (bind_Ok (gets _)) by reflexivity.
  erewrite (bind_Ok (external _ _));
    [| rewrite external_run; fold here; rewrite Happ; reflexivity].
  erewrite (bind_Ok (modify _)) by reflexivity.
  erewrite (bind_Ok (modify _)) by reflexivity.
  match goal with
  | |- config_stack env (snd (?rest ?w3)) = _ /\ _ =>
      assert (Hkeep : same_path_config env w3 (snd (rest w3)))
  end.
  { keep_path_config. }
  destruct Hkeep as (Hpath & Hconfig). rewrite Hpath, Hconfig.
  split; reflexivity.
Qed.

End ShellConfig.

(** X12. Without argument, when [development.ini] is a file of the current
    directory, the shell command does exactly what it does when given
    [development.ini] as its argument. *)
Theorem shell_default_config (env : Env) (w : world env) :
  isfile env "development.ini" (ext env w) = true ->
  ShellCommand.command env [] w =
  ShellCommand.command env ["development.ini"] w.
Proof.
  intros Hfile.
  unfold ShellCommand.command, shell_config_file, default_config_file, bind,
    modify, gets. simpl. rewrite Hfile. reflexivity.
Qed.

Lemma shell_default_config_witness :
  ShellCommand.command Scenario.env_ok [] (Demo.start Scenario.env_ok tt) =
  ShellCommand.command Scenario.env_ok ["development.ini"]
    (Demo.start Scenario.env_ok tt).
Proof.
  apply (shell_default_config Scenario.env_ok (Demo.start Scenario.env_ok tt)).
  reflexivity.
Defined.

(** X13. Once [appconfig] has returned the configuration, the shell
    command, however it ends afterwards (the application or a project
    module failing to load, the console raising or returning), leaves
    exactly one more entry on the configuration stack, with [app] and
    [app_conf] both bound to that configuration, and the working directory
    once in front of [sys.path]: it pops or removes neither. *)
Theorem shell_config_pushed_once (env : Env) (args : list string)
    (w w1 : world env) (config_file : string) (app_conf : value) :
  shell_config_file env args (set_verbose env 3 w) = (Ok config_file, w1) ->
  let here := getcwd env (ext env w) in
  fst (appconfig env ("config:" +:+ config_file) here (ext env w)) =
    Ok app_conf ->
  let final := snd (ShellCommand.command env args w) in
  config_stack env final =
    <["app_conf" := app_conf]> {[ "app" := app_conf ]} :: config_stack env w /\
  sys_path env final = here :: sys_path env w.
Proof.
  intros Hconfig here Happ final. subst final.
  assert (Hw1 : w1 = set_verbose env 3 w).
  { apply (f_equal snd) in Hconfig. simpl in Hconfig.
    by rewrite shell_config_file_state in Hconfig. }
  subst w1.
  destruct (shell_load_after_appconfig env config_file (set_verbose env 3 w)
              app_conf Happ) as (Hstack & Hpath).
  unfold ShellCommand.command.
  erewrite (bind_Ok env (modify _)) by reflexivity.
  erewrite (bind_Ok env (shell_config_file env args)) by exact Hconfig.
  destruct (shell_load env config_file (set_verbose env 3 w))
    as [[ld|e] w2] eqn:Hload; simpl in Hstack, Hpath.
  - erewrite (bind_Ok env (shell_load env config_file)) by exact Hload.
    assert (Hkeep : same_path_config env w2
              (snd (bind (shell_assemble env ld)
                      (fun '(banner, locs) => shell_console env banner locs)
                      w2))).
    { apply (preserves_bind env _ (same_path_config_trans env)).
      - apply shell_assemble_same_path_config.
      - intros [banner locs] w3. apply shell_console_same_path_config. }
    destruct Hkeep as (Hp & Hc). rewrite Hp, Hc. by split.
  - erewrite (bind_Raise env (shell_load env config_file)) by exact Hload.
    by split.
Qed.

Lemma shell_config_pushed_once_witness :
  config_stack Scenario.env_ok
    (snd (ShellCommand.command Scenario.env_ok ["development.ini"]
            (Demo.start Scenario.env_ok tt))) =
  [<["app_conf" := Scenario.app_conf]> {[ "app" := Scenario.app_conf ]}].
Proof.
  refine (proj1 (shell_config_pushed_once Scenario.env_ok ["development.ini"]
                   (Demo.start Scenario.env_ok tt) _ "development.ini"
                   Scenario.app_conf _ _)); reflexivity.
Defined.

(** X14. When [appconfig] raises, the shell command ends with that very
    exception: nothing was pushed on the configuration stack, [sys.path] and
    [sys.modules] are as before, and [appconfig] is the only collaborator
    that was called. *)
Theorem shell_appconfig_failure (env : Env) (args : list string)
    (w w1 : world env) (config_file : string) (e : exc) :
  shell_config_file env args (set_verbose env 3 w) = (Ok config_file, w1) ->
  let here := getcwd env (ext env w) in
  fst (appconfig env ("config:" +:+ config_file) here (ext env w)) =
    Raise e ->
  let r := ShellCommand.command env args w in
  fst r = Raise e /\
  config_stack env (snd r) = config_stack env w /\
  sys_path env (snd r) = sys_path env w /\
  sys_modules env (snd r) = sys_modules env w /\
  calls env (snd r) =
    calls env w ++ [EvAppconfig ("config:" +:+ config_file) here].
Proof.
  intros Hconfig here Happ r. subst r.
  assert (Hw1 : w1 = set_verbose env 3 w).
  { apply (f_equal snd) in Hconfig. simpl in Hconfig.
    by rewrite shell_config_file_state in Hconfig. }
  subst w1. unfold ShellCommand.command.
  erewrite (bind_Ok env (modify _)) by reflexivity.
  erewrite (bind_Ok env (shell_config_file env args)) by exact Hconfig.
  erewrite (bind_Raise env (shell_load env config_file)).
  2:{ unfold shell_load. erewrite (bind_Ok env (gets _)) by reflexivity.
      erewrite (bind_Raise env (external _ _)); [reflexivity |].
      rewrite external_run. simpl. fold here. rewrite Happ. reflexivity. }
  repeat split.
Qed.

Lemma shell_appconfig_failure_witness :
  fst (ShellCommand.command Scenario.env_no_conf ["development.ini"]
         (Demo.start Scenario.env_no_conf tt)) =
  Raise Scenario.no_app_section.
Proof.
  refine (proj1 (shell_appconfig_failure Scenario.env_no_conf
                   ["development.ini"] (Demo.start Scenario.env_no_conf tt)
                   _ "development.ini" Scenario.no_app_section _ _));
    reflexivity.
Defined.

Section Banner.

Context (env : Env).

(** The banner depends on the globals object through its truth alone. *)
Lemma make_banner_truthy (v : value) :
  make_banner env v =
  make_banner env (if truthy v then VObj 0 true else VNone).
Proof. unfold make_banner. by destruct (truthy v). Qed.

Lemma banners_differ :
  make_banner env (VObj 0 true) <> make_banner env VNone.
Proof.
  unfold make_banner. simpl truthy. intros H.
  repeat (apply String.app_inj in H). vm_compute in H. discriminate H.
Qed.

End Banner.

(** X15. The banner and the namespace agree on the globals object: once the
    project has loaded, the assembly yields a banner that has the line for
    [g] when the namespace has the key [g], and is the banner without that
    line when it has not; the two banners are different texts. *)
Theorem shell_banner_matches_namespace (env : Env) (w1 w2 : world env)
    (config_file : string) (ld : loaded) :
  shell_load env config_file w1 = (Ok ld, w2) ->
  (exists banner locs w3,
     shell_assemble env ld w2 = (Ok (banner, locs), w3) /\
     (("g" ∈ dom locs /\ banner = make_banner env (VObj 0 true)) \/
      (("g" ∉ dom locs) /\ banner = make_banner env VNone))) /\
  (exists head rest,
     make_banner env (VObj 0 true) =
       head +:+ banner_line "g" "Globals object" +:+ rest /\
     make_banner env VNone = head +:+ rest) /\
  make_banner env (VObj 0 true) <> make_banner env VNone.
Proof.
  intros Hload.
  destruct (shell_load_modules env _ _ _ _ Hload) as (Hm & Hh).
  split; [| split].
  - rewrite (shell_assemble_run env ld w2 Hm Hh). cbv zeta.
    set (v := probed (fst (get_root_g env (ld_test_app ld) (ext env w2)))).
    assert (Hbase : "g" ∉ dom (base_namespace ld)).
    { rewrite base_namespace_dom. set_solver. }
    rewrite (make_banner_truthy env v).
    destruct (truthy v); eexists _, _, _; (split; [reflexivity |]).
    + left. split; [| reflexivity]. rewrite dom_insert_L. set_solver.
    + right. split; [exact Hbase | reflexivity].
  - exists ("Pylons Interactive Shell" +:+ nl +:+ "Python " +:+
            sys_version env +:+ nl +:+ nl +:+ "Additional Objects:" +:+ nl +:+
            banner_line "mapper" "Routes mapper object" +:+
            banner_line "h" "Helper object").
    exists (banner_line "model" "Models from models package" +:+
            banner_line "wsgiapp" "This projects WSGI App instance" +:+
            banner_line "app" "paste.fixture wrapped around wsgiapp").
    unfold make_banner. simpl truthy. cbv iota.
    rewrite !app_assoc_str. split; reflexivity.
  - apply banners_differ.
Qed.

Lemma shell_banner_matches_namespace_witness :
  exists banner locs w3,
    shell_assemble Demo.env_no_g
      (mkLoaded "myproj.models" "myproj.lib.helpers" (VObj 4 true)
         (VObj 2 true) (VObj 5 true))
      (snd (shell_load Demo.env_no_g "development.ini"
              (set_verbose Demo.env_no_g 3 (Demo.start Demo.env_no_g tt)))) =
      (Ok (banner, locs), w3) /\
    (("g" ∈ dom locs /\ banner = make_banner Demo.env_no_g (VObj 0 true)) \/
     (("g" ∉ dom locs) /\ banner = make_banner Demo.env_no_g VNone)).
Proof.
  refine (proj1 (shell_banner_matches_namespace Demo.env_no_g
                   (set_verbose Demo.env_no_g 3 (Demo.start Demo.env_no_g tt))
                   _ "development.ini" _ _)).
  vm_compute. reflexivity.
Defined.

(** X16. Wrapping [raw_input] twice is wrapping it once, for both console
    classes, and the two classes wrap alike: on every parent and every
    state the doubly wrapped [raw_input] gives the outcome and the state of
    the singly wrapped one. *)
Theorem raw_input_idempotent (env : Env) (parent : M env string)
    (w : world env) :
  CustomIPShell.raw_input env (CustomIPShell.raw_input env parent) w =
    CustomIPShell.raw_input env parent w /\
  CustomShell.raw_input env (CustomShell.raw_input env parent) w =
    CustomShell.raw_input env parent w /\
  CustomShell.raw_input env (CustomIPShell.raw_input env parent) w =
    CustomIPShell.raw_input env parent w.
Proof.
  unfold CustomIPShell.raw_input, CustomShell.raw_input, try_except_class,
    try_except.
  destruct (parent w) as [[line|e] w1]; simpl; [by repeat split |].
  destruct (isinstance e EOFError) eqn:Heof; simpl.
  - repeat split.
  - rewrite Heof. repeat split.
Qed.

Section Consoles.

Context (env : Env).
Implicit Types (w : world env).

Lemma ImportError_caught msg : isinstance (mkExc ImportError msg) ImportError = true.
Proof. reflexivity. Qed.

(** The basic console: [code] is found, [readline] is found or missing. *)
Lemma basic_console_run banner locs w x2 x3 o :
  "code" ∉ sys_modules env w ->
  "readline" ∉ sys_modules env w ->
  find_module env (sys_path env w) "code" (ext env w) = (Loaded, x2) ->
  find_module env (sys_path env w) "readline" x2 = (o, x3) ->
  o = Loaded \/ o = NotFound ->
  let basic :=
    (py_import env "code" ;;
     try_except_class (py_import env "readline") ImportError
       (fun _ => pass) ;;
     external (EvInteract banner locs) (interact env banner locs)) in
  fst (basic w) = fst (interact env banner locs x3) /\
  calls env (snd (basic w)) =
    calls env w ++ [EvFindModule "code"; EvFindModule "readline";
                    EvInteract banner locs].
Proof.
  intros Hcode Hreadline Hfcode Hfread Ho basic. subst basic.
  erewrite bind_Ok.
  2:{ rewrite py_import_search; [| discriminate | reflexivity | exact Hcode].
      cbv zeta. rewrite Hfcode. reflexivity. }
  cbn [snd].
  set (w1 := set_sys_modules env _ (set_ext env x2 _)).
  assert (Hread1 : "readline" ∉ sys_modules env w1).
  { subst w1. simpl. set_solver. }
  assert (Htry : exists w2,
            try_except_class (py_import env "readline") ImportError
              (fun _ => pass) w1 = (Ok tt, w2) /\
            ext env w2 = x3 /\
            calls env w2 = calls env w1 ++ [EvFindModule "readline"]).
  { unfold try_except_class, try_except.
    rewrite py_import_search; [| discriminate | reflexivity | exact Hread1].
    cbv zeta. replace (sys_path env w1) with (sys_path env w) by reflexivity.
    replace (ext env w1) with x2 by reflexivity. rewrite Hfread.
    destruct Ho as [-> | ->]; simpl; eexists; repeat split. }
  destruct Htry as (w2 & Htry & Hext & Hcalls).
  erewrite bind_Ok by exact Htry.
  rewrite external_run. simpl. rewrite Hext, Hcalls.
  split; [reflexivity |]. subst w1. simpl. by rewrite <- !app_assoc.
Qed.

End Consoles.

(** X17. Without IPython the basic console is started, with the banner and
    the namespace, whether [readline] can be imported or not: when the
    import of [IPython] finds no module, [code] is imported, the import of
    [readline] is tried and its failure ignored, and the command ends as
    [interact] does. *)
Theorem shell_console_without_ipython (env : Env) (banner : string)
    (locs : gmap string value) (w : world env) (x1 x2 x3 : E env)
    (o : import_outcome) :
  "IPython" ∉ sys_modules env w ->
  "code" ∉ sys_modules env w ->
  "readline" ∉ sys_modules env w ->
  find_module env (sys_path env w) "IPython" (ext env w) = (NotFound, x1) ->
  find_module env (sys_path env w) "code" x1 = (Loaded, x2) ->
  find_module env (sys_path env w) "readline" x2 = (o, x3) ->
  o = Loaded \/ o = NotFound ->
  let r := shell_console env banner locs w in
  fst r = fst (interact env banner locs x3) /\
  calls env (snd r) =
    calls env w ++ [EvFindModule "IPython"; EvFindModule "code";
                    EvFindModule "readline"; EvInteract banner locs].
Proof.
  intros Hipython Hcode Hreadline Hfip Hfcode Hfread Ho r. subst r.
  set (w0 := set_ext env x1 (log env (EvFindModule "IPython") w)).
  assert (Hrun : shell_console env banner locs w =
                 (py_import env "code" ;;
                  try_except_class (py_import env "readline") ImportError
                    (fun _ => pass) ;;
                  external (EvInteract banner locs)
                    (interact env banner locs)) w0).
  { unfold shell_console, try_except_class at 1, try_except at 1.
    erewrite bind_Raise.
    2:{ rewrite py_import_search;
          [| discriminate | reflexivity | exact Hipython].
        cbv zeta. rewrite Hfip. reflexivity. }
    rewrite ImportError_caught. reflexivity. }
  rewrite Hrun.
  destruct (basic_console_run env banner locs w0 x2 x3 o Hcode Hreadline
              Hfcode Hfread Ho) as (Hres & Hcalls).
  split; [exact Hres |]. rewrite Hcalls. subst w0. simpl.
  by rewrite <- app_assoc.
Qed.

Lemma shell_console_without_ipython_witness :
  calls Demo.env_g
    (snd (shell_console Demo.env_g "banner" ∅ (Demo.start Demo.env_g tt))) =
  [EvFindModule "IPython"; EvFindModule "code"; EvFindModule "readline";
   EvInteract "banner" ∅].
Proof.
  refine (proj2 (shell_console_without_ipython Demo.env_g "banner" ∅
                   (Demo.start Demo.env_g tt) tt tt tt NotFound
                   _ _ _ _ _ _ _));
    try (vm_compute; discriminate); try reflexivity.
  by right.
Defined.

(** X18. The [except ImportError] of the IPython branch covers the IPython
    shell too: when IPython imports but creating or running its shell
    raises an [ImportError], the basic console is started after it, with
    the same banner and namespace, and the command ends as [interact]
    does. *)
Theorem shell_console_ipython_import_error (env : Env) (banner : string)
    (locs : gmap string value) (w : world env) (x1 x2 x3 x4 : E env)
    (e : exc) (o : import_outcome) :
  "IPython" ∉ sys_modules env w ->
  "code" ∉ sys_modules env w ->
  "readline" ∉ sys_modules env w ->
  find_module env (sys_path env w) "IPython" (ext env w) = (Loaded, x1) ->
  ipshell_mainloop env locs x1 = (Raise e, x2) ->
  isinstance e ImportError = true ->
  find_module env (sys_path env w) "code" x2 = (Loaded, x3) ->
  find_module env (sys_path env w) "readline" x3 = (o, x4) ->
  o = Loaded \/ o = NotFound ->
  let r := shell_console env banner locs w in
  fst r = fst (interact env banner locs x4) /\
  calls env (snd r) =
    calls env w ++ [EvFindModule "IPython"; EvIPShell locs;
                    EvFindModule "code"; EvFindModule "readline";
                    EvInteract banner locs].
Proof.
  intros Hipython Hcode Hreadline Hfip Hloop Hcls Hfcode Hfread Ho r. subst r.
  set (w0 := set_ext env x2
               (log env (EvIPShell locs)
                  (set_sys_modules env ({["IPython"]} ∪ sys_modules env w)
                     (set_ext env x1 (log env (EvFindModule "IPython") w))))).
  assert (Hrun : shell_console env banner locs w =
                 (py_import env "code" ;;
                  try_except_class (py_import env "readline") ImportError
                    (fun _ => pass) ;;
                  external (EvInteract banner locs)
                    (interact env banner locs)) w0).
  { unfold shell_console, try_except_class at 1, try_except at 1.
    erewrite bind_Ok.
    2:{ rewrite py_import_search;
          [| discriminate | reflexivity | exact Hipython].
        cbv zeta. rewrite Hfip. reflexivity. }
    rewrite external_run. cbn [fst snd]. simpl ext. rewrite Hloop.
    cbn [fst snd]. rewrite Hcls. reflexivity. }
  rewrite Hrun.
  destruct (basic_console_run env banner locs w0 x3 x4 o) as (Hres & Hcalls);
    [subst w0; simpl; set_solver | subst w0; simpl; set_solver
    | exact Hfcode | exact Hfread | exact Ho |].
  split; [exact Hres |]. rewrite Hcalls. subst w0. simpl.
  by rewrite <- !app_assoc.
Qed.

Lemma shell_console_ipython_import_error_witness :
  calls Scenario.env_ipython_incomplete
    (snd (shell_console Scenario.env_ipython_incomplete "banner" ∅
            (Demo.start Scenario.env_ipython_incomplete tt))) =
  [EvFindModule "IPython"; EvIPShell ∅; EvFindModule "code";
   EvFindModule "readline"; EvInteract "banner" ∅].
Proof.
  refine (proj2 (shell_console_ipython_import_error
                   Scenario.env_ipython_incomplete "banner" ∅
                   (Demo.start Scenario.env_ipython_incomplete tt)
                   tt tt tt tt (mkExc ImportError "No module named readline")
                   NotFound _ _ _ _ _ _ _ _ _));
    try (vm_compute; discriminate); try reflexivity.
  by right.
Defined.

(** X19. With IPython, the basic console is not started: when IPython
    imports and its shell returns, or raises anything but an
    [ImportError], the command ends as that shell did, having called
    nothing after it. *)
Theorem shell_console_ipython (env : Env) (banner : string)
    (locs : gmap string value) (w : world env) (x1 : E env) :
  "IPython" ∉ sys_modules env w ->
  find_module env (sys_path env w) "IPython" (ext env w) = (Loaded, x1) ->
  (forall e, fst (ipshell_mainloop env locs x1) = Raise e ->
             isinstance e ImportError = false) ->
  let r := shell_console env banner locs w in
  fst r = fst (ipshell_mainloop env locs x1) /\
  calls env (snd r) = calls env w ++ [EvFindModule "IPython"; EvIPShell locs].
Proof.
  intros Hipython Hfip Hloop r. subst r.
  assert (Hrun : shell_console env banner locs w =
                 (fst (ipshell_mainloop env locs x1),
                  set_ext env (snd (ipshell_mainloop env locs x1))
                    (log env (EvIPShell locs)
                       (set_sys_modules env
                          ({["IPython"]} ∪ sys_modules env w)
                          (set_ext env x1
                             (log env (EvFindModule "IPython") w)))))).
  { unfold shell_console, try_except_class at 1, try_except at 1.
    erewrite bind_Ok.
    2:{ rewrite py_import_search;
          [| discriminate | reflexivity | exact Hipython].
        cbv zeta. rewrite Hfip. reflexivity. }
    rewrite external_run. cbn [fst snd]. simpl ext.
    destruct (fst (ipshell_mainloop env locs x1)) as [[]|e] eqn:Hres;
      [reflexivity |].
    rewrite (Hloop e eq_refl). reflexivity. }
  rewrite Hrun. split; [reflexivity |]. simpl. by rewrite <- app_assoc.
Qed.

Lemma shell_console_ipython_witness :
  calls Scenario.env_ok
    (snd (shell_console Scenario.env_ok "banner" ∅
            (Demo.start Scenario.env_ok tt))) =
  [EvFindModule "IPython"; EvIPShell ∅].
Proof.
  refine (proj2 (shell_console_ipython Scenario.env_ok "banner" ∅
                   (Demo.start Scenario.env_ok tt) tt _ _ _)).
  - vm_compute. discriminate.
  - reflexivity.
  - intros e He. discriminate He.
Defined.

Section OutsideProject.

Context (env : Env).
Implicit Types (w : world env) (a b seen : string).

Lemma app_empty_r a : a +:+ EmptyString = a.
Proof. induction a as [|c a IH]; [reflexivity |]. by rewrite app_String, IH. Qed.

(** The first package above a dotted name is what stands before its first
    dot. *)
Lemma dotted_parents_first seen a b :
  top_level a ->
  dotted_parents seen (a +:+ String "." b) =
  (seen +:+ a) :: dotted_parents (seen +:+ a +:+ ".") b.
Proof.
  unfold top_level. revert seen. induction a as [|c a IH]; intros seen Htop.
  - change (EmptyString +:+ String "." b) with (String "."%char b).
    simpl. by rewrite app_empty_r.
  - simpl in Htop. apply orb_false_iff in Htop as [Hc Ha].
    rewrite app_String. simpl. rewrite Hc. rewrite (IH _ Ha).
    rewrite !app_assoc_str. reflexivity.
Qed.

Lemma py_import_package_missing a b w :
  a <> EmptyString ->
  top_level a ->
  a ∉ sys_modules env w ->
  fst (find_module env (sys_path env w) a (ext env w)) = NotFound ->
  py_import env (a +:+ String "." b) w =
  (Raise (mkExc ImportError
            ("No module named " +:+ missing_name (a +:+ String "." b) a)),
   set_ext env (snd (find_module env (sys_path env w) a (ext env w)))
     (log env (EvFindModule a) w)).
Proof.
  intros Hne Htop Hnotin Hfind. unfold py_import.
  assert (Hempty : PyStr.is_empty (a +:+ String "." b) = false).
  { destruct a; [congruence | reflexivity]. }
  rewrite Hempty. unfold package_chain.
  rewrite (dotted_parents_first EmptyString a b Htop).
  change (EmptyString +:+ a) with a. simpl.
  unfold bind at 1, import_one, bind, gets, run_find_module. simpl.
  rewrite bool_decide_eq_false_2 by exact Hnotin.
  destruct (find_module env (sys_path env w) a (ext env w)) as [o x].
  simpl in *. subst o. reflexivity.
Qed.

End OutsideProject.

(** X20. Outside a project the shell command fails on its imports: when the
    configuration and the application load, but the name of the working
    directory, in lower case, is not a package that is loaded or can be
    found, the command ends with the [ImportError] of the import of the
    routing module (it is not caught, unlike the one of IPython); the
    search for that package is the last call made, so no console is
    started, and [pylons.g] is not touched. *)
Theorem shell_outside_project (env : Env) (args : list string)
    (w w1 : world env) (config_file : string) (app_conf wsgiapp : value)
    (x1 x2 x3 : E env) :
  shell_config_file env args (set_verbose env 3 w) = (Ok config_file, w1) ->
  let here := getcwd env (ext env w) in
  let pkg_name :=
    PyStr.lower (PyStr.last (PyStr.split OsPath.sep here)) in
  let config_name := "config:" +:+ config_file in
  appconfig env config_name here (ext env w) = (Ok app_conf, x1) ->
  loadapp env config_name here x1 = (Ok wsgiapp, x2) ->
  pkg_name <> EmptyString ->
  top_level pkg_name ->
  pkg_name ∉ sys_modules env w ->
  find_module env (here :: sys_path env w) pkg_name x2 = (NotFound, x3) ->
  let r := ShellCommand.command env args w in
  (exists e, fst r = Raise e /\ isinstance e ImportError = true) /\
  calls env (snd r) =
    calls env w ++ [EvAppconfig config_name here; EvLoadapp config_name here;
                    EvFindModule pkg_name] /\
  pylons_g env (snd r) = pylons_g env w.
Proof.
  intros Hconfig here pkg_name config_name Happ Hload Hne Htop Hnotin Hfind r.
  subst r.
  assert (Hw1 : w1 = set_verbose env 3 w).
  { apply (f_equal snd) in Hconfig. simpl in Hconfig.
    by rewrite shell_config_file_state in Hconfig. }
  subst w1. unfold ShellCommand.command.
  erewrite (bind_Ok env (modify _)) by reflexivity.
  erewrite (bind_Ok env (shell_config_file env args)) by exact Hconfig.
  erewrite (bind_Raise env (shell_load env config_file)).
  2:{ unfold shell_load. erewrite (bind_Ok env (gets _)) by reflexivity.
      erewrite (bind_Ok env (external _ _)).
      2:{ rewrite external_run. simpl ext. fold here. fold config_name.
          rewrite Happ. reflexivity. }
      erewrite (bind_Ok env (modify _)) by reflexivity.
      erewrite (bind_Ok env (modify _)) by reflexivity.
      erewrite (bind_Ok env (external _ _)).
      2:{ rewrite external_run. simpl ext. fold here. fold config_name.
          rewrite Hload. reflexivity. }
      erewrite (bind_Raise env (import_all env _)); [reflexivity |].
      simpl import_all. erewrite (bind_Raise env (py_import env _));
        [reflexivity |].
      fold here. fold pkg_name.
      change (pkg_name +:+ ".config.routing")
        with (pkg_name +:+ String "." "config.routing").
      rewrite py_import_package_missing;
        [| exact Hne | exact Htop | exact Hnotin
         | simpl; fold here; rewrite Hfind; reflexivity].
      simpl. fold here. rewrite Hfind. reflexivity. }
  split; [eexists; split; reflexivity |]. split; [| reflexivity].
  simpl. fold here. fold config_name. by rewrite <- !app_assoc.
Qed.

Lemma shell_outside_project_witness :
  calls Scenario.env_elsewhere
    (snd (ShellCommand.command Scenario.env_elsewhere ["development.ini"]
            (Demo.start Scenario.env_elsewhere tt))) =
  [EvAppconfig "config:development.ini" "/tmp";
   EvLoadapp "config:development.ini" "/tmp"; EvFindModule "tmp"].
Proof.
  refine (proj1 (proj2 (shell_outside_project Scenario.env_elsewhere
                   ["development.ini"] (Demo.start Scenario.env_elsewhere tt)
                   _ "development.ini" Scenario.app_conf (VObj 2 true)
                   tt tt tt _ _ _ _ _ _ _)));
    try reflexivity.
  - discriminate.
  - vm_compute. discriminate.
Defined.
